(** * HMC5883L: the I2Cdev driver of the Honeywell 3-axis magnetometer

    A shallow embedding of [Arduino/HMC5883L/HMC5883L.cpp].  The driver
    object and the bus it talks to are threaded through a state-and-error
    monad; every call on the bus transport and on the timing primitives is
    recorded in a trace, so that what the driver writes, and in which
    order, can be stated.  *)

From Stdlib Require Import ZArith List Bool Lia.
From Stdlib Require Import Floats.SpecFloat.
Import ListNotations.

Open Scope Z_scope.

(** ** Machine integers

    The fixed-width integers of the source are integers of [Z] with the
    wrap-around of every conversion written out. *)

Definition to_uint8 (z : Z) : Z := z mod 256.
Definition to_int8 (z : Z) : Z := (z + 128) mod 256 - 128.
Definition to_int16 (z : Z) : Z := (z + 32768) mod 65536 - 32768.

(** ** Single-precision floats

    [float] of the source is IEEE 754 binary32 ([double] has the same
    format on the AVR targets of the Arduino tree).  The operations are
    the ones of the specification of floating-point numbers of the
    Standard Library at precision 24 and maximal exponent 128. *)

Module Float32.

Definition float : Type := spec_float.

Definition prec : Z := 24.
Definition emax : Z := 128.

Definition mul : float -> float -> float := SFmul prec emax.
Definition div : float -> float -> float := SFdiv prec emax.

(** The literal [1.0f]. *)
Definition one : float := SFone prec emax.

(** Conversion of an integer operand to [float] (round to nearest even;
    exact below 2^24). *)
Definition of_int (z : Z) : float := binary_normalize prec emax z 0 false.

(** Truncation toward zero of a finite float, [sign * m * 2^e]: the
    magnitude [m * 2^e] loses its fractional bits and the sign is put
    back afterwards.  Infinities and NaN have no integer part. *)
Definition trunc (f : float) : option Z :=
  match f with
  | S754_zero _ => Some 0
  | S754_finite s m e => Some (cond_Zopp s (Z.shiftl (Zpos m) e))
  | S754_infinity _ => None
  | S754_nan => None
  end.

(** The conversion [(int16_t) f]: the truncated value when it is
    representable, no defined result otherwise. *)
Definition to_int16 (f : float) : option Z :=
  match trunc f with
  | Some z => if (-32768 <=? z) && (z <=? 32767) then Some z else None
  | None => None
  end.

End Float32.

Abbreviation float := Float32.float.

(** ** Constants of the header

    Modelled from the spec: the register map, the bit positions and the
    field values of [HMC5883L.h], which is not among the sources.  The
    values are the ones of the datasheet the source cites, as the spec
    (section 4.1, gain 3 bits written as [g << 5], mode 2 bits with bits
    7-2 zero, gain index 0..7) and the documentation comments of the
    accessors (value tables of averaging, rate, bias and gain) give them. *)

Definition HMC5883L_ADDRESS : Z := 0x1E.
Definition HMC5883L_DEFAULT_ADDRESS : Z := 0x1E.

Definition HMC5883L_RA_CONFIG_A : Z := 0x00.
Definition HMC5883L_RA_CONFIG_B : Z := 0x01.
Definition HMC5883L_RA_MODE : Z := 0x02.
Definition HMC5883L_RA_DATAX_H : Z := 0x03.
Definition HMC5883L_RA_STATUS : Z := 0x09.
Definition HMC5883L_RA_ID_A : Z := 0x0A.
Definition HMC5883L_RA_ID_B : Z := 0x0B.
Definition HMC5883L_RA_ID_C : Z := 0x0C.

Definition HMC5883L_CRA_AVERAGE_BIT : Z := 6.
Definition HMC5883L_CRA_AVERAGE_LENGTH : Z := 2.
Definition HMC5883L_CRA_RATE_BIT : Z := 4.
Definition HMC5883L_CRA_RATE_LENGTH : Z := 3.
Definition HMC5883L_CRA_BIAS_BIT : Z := 1.
Definition HMC5883L_CRA_BIAS_LENGTH : Z := 2.

Definition HMC5883L_AVERAGING_8 : Z := 0x03.
Definition HMC5883L_RATE_15 : Z := 0x04.

Definition HMC5883L_BIAS_NORMAL : Z := 0x00.
Definition HMC5883L_BIAS_POSITIVE : Z := 0x01.
Definition HMC5883L_BIAS_NEGATIVE : Z := 0x02.

Definition HMC5883L_CRB_GAIN_BIT : Z := 7.
Definition HMC5883L_CRB_GAIN_LENGTH : Z := 3.

Definition HMC5883L_GAIN_1370 : Z := 0x00.
Definition HMC5883L_GAIN_1090 : Z := 0x01.
Definition HMC5883L_GAIN_220 : Z := 0x07.

Definition HMC5883L_MODEREG_BIT : Z := 1.
Definition HMC5883L_MODEREG_LENGTH : Z := 2.

Definition HMC5883L_MODE_CONTINUOUS : Z := 0x00.
Definition HMC5883L_MODE_SINGLE : Z := 0x01.
Definition HMC5883L_MODE_IDLE : Z := 0x02.

Definition HMC5883L_STATUS_LOCK_BIT : Z := 1.
Definition HMC5883L_STATUS_READY_BIT : Z := 0.

(** The ASCII codes of the character literals ['H'], ['4'] and ['3']. *)
Definition char_H : Z := 72.
Definition char_4 : Z := 52.
Definition char_3 : Z := 51.

(** Constants of the header whose values neither the source nor the spec
    gives: the two delays, the self-test field per axis and the table of
    LSB per gauss, one entry per gain 0..7.  They are parameters of the
    development. *)
Class Header : Type := {
  HMC5883L_READY_FOR_I2C_COMMAND : Z;
  HMC5883L_MEASUREMENT_PERIOD : Z;
  HMC5883L_SELF_TEST_X_AXIS_ABSOLUTE_GAUSS : float;
  HMC5883L_SELF_TEST_Y_AXIS_ABSOLUTE_GAUSS : float;
  HMC5883L_SELF_TEST_Z_AXIS_ABSOLUTE_GAUSS : float;
  HMC5883L_LSB_PER_GAUS : Z -> float
}.

(** ** The bus transport and the timing primitives *)

(** One entry of the trace per call, with the arguments of the call and
    the answer of the bus. *)
Inductive event : Type :=
| WriteByte (devAddr regAddr data : Z) (ack : bool)
| WriteBits (devAddr regAddr bitStart length data : Z) (ack : bool)
| ReadByte (devAddr regAddr : Z) (res : option Z)
| ReadBytes (devAddr regAddr length : Z) (data : list Z)
| ReadBit (devAddr regAddr bitNum : Z) (res : option Z)
| ReadBits (devAddr regAddr bitStart length : Z) (res : option Z)
| DelayMicroseconds (us : Z)
| Delay (ms : Z).

(** Modelled from the spec: the bus transport [I2Cdev] (section 6), whose
    source is not part of this unit, as a static interface over a bus of
    any state type [B].  A write answers whether it was acknowledged; a
    single read answers the value read, or nothing when the transfer
    failed; a block read answers the bytes that arrived, fewer than
    requested on a short read. *)
Class I2Cdev (B : Type) : Type := {
  bus_writeByte : Z -> Z -> Z -> B -> bool * B;
  bus_writeBits : Z -> Z -> Z -> Z -> Z -> B -> bool * B;
  bus_readByte : Z -> Z -> B -> option Z * B;
  bus_readBytes : Z -> Z -> Z -> B -> list Z * B;
  bus_readBit : Z -> Z -> Z -> B -> option Z * B;
  bus_readBits : Z -> Z -> Z -> Z -> B -> option Z * B
}.

(** Modelled from the spec: the timing collaborator (section 6),
    [delayMicroseconds] and [delay] of the Arduino core: what the time
    that passes does to the bus and the device behind it. *)
Class Timing (B : Type) : Type := {
  wait_us : Z -> B -> B;
  wait_ms : Z -> B -> B
}.

(** ** The driver object *)

(** The fields of [class HMC5883L], the bus and the trace.  The arrays
    [uint8_t buffer[6]] and [float scaleFactors[8][3]] are functions of
    their indices, read and written within their bounds only. *)
Record state (B : Type) : Type := mkState {
  devAddr : Z;
  buffer : Z -> Z;
  mode : Z;
  gain : Z;
  scaleFactors : Z -> Z -> float;
  bus : B;
  trace : list event
}.

Arguments mkState {B}.
Arguments devAddr {B}.
Arguments buffer {B}.
Arguments mode {B}.
Arguments gain {B}.
Arguments scaleFactors {B}.
Arguments bus {B}.
Arguments trace {B}.

(** A raw or scaled sample, in the order [(x, y, z)] of the out
    parameters. *)
Definition sample : Type := (Z * Z * Z)%type.

Definition sample_x (s : sample) : Z := fst (fst s).
Definition sample_y (s : sample) : Z := snd (fst s).
Definition sample_z (s : sample) : Z := snd s.


(** Some axis of the sample has the value [v]. *)
Definition some_axis_is (v : Z) (raw : sample) : Prop :=
  sample_x raw = v \/ sample_y raw = v \/ sample_z raw = v.

(** No axis of the sample is below [v]. *)
Definition no_axis_below (v : Z) (raw : sample) : Prop :=
  v <= sample_x raw /\ v <= sample_y raw /\ v <= sample_z raw.

Section Driver.

Context {B : Type} {I2C : I2Cdev B} {T : Timing B} {H : Header}.

Abbreviation st := (state B).

(** *** The monad

    A computation maps the state to a result and a new state, or to
    [None] where the source has no defined behaviour (an array indexed
    out of its bounds, a float converted to an integer type that cannot
    hold it) or where a loop ran out of fuel. *)
Definition M (A : Type) : Type := st -> option (A * st).

Definition ret {A : Type} (a : A) : M A := fun s => Some (a, s).

Definition bind {A C : Type} (m : M A) (k : A -> M C) : M C :=
  fun s => match m s with
           | Some (a, s') => k a s'
           | None => None
           end.

Definition undefined {A : Type} : M A := fun _ => None.

Definition gets {A : Type} (f : st -> A) : M A := fun s => Some (f s, s).

Definition lift_option {A : Type} (o : option A) : M A :=
  match o with
  | Some a => ret a
  | None => undefined
  end.

Notation "x <- m ;; k" := (bind m (fun x => k))
  (at level 61, m at next level, right associativity).
Notation "m ;;; k" := (bind m (fun _ => k))
  (at level 61, right associativity).

(** *** Field updates *)

Definition set_buffer (f : Z -> Z) (s : st) : st :=
  mkState (devAddr s) f (mode s) (gain s) (scaleFactors s) (bus s) (trace s).

Definition set_mode (m : Z) (s : st) : st :=
  mkState (devAddr s) (buffer s) m (gain s) (scaleFactors s) (bus s) (trace s).

Definition set_gain (g : Z) (s : st) : st :=
  mkState (devAddr s) (buffer s) (mode s) g (scaleFactors s) (bus s) (trace s).

Definition set_scaleFactors (f : Z -> Z -> float) (s : st) : st :=
  mkState (devAddr s) (buffer s) (mode s) (gain s) f (bus s) (trace s).

(** The bus moves to [b] and the call [e] is appended to the trace. *)
Definition record (b : B) (e : event) (s : st) : st :=
  mkState (devAddr s) (buffer s) (mode s) (gain s) (scaleFactors s) b
          (trace s ++ [e]).

(** [buffer[i] = v]. *)
Definition upd (f : Z -> Z) (i v : Z) : Z -> Z :=
  fun j => if j =? i then v else f j.

(** The bytes of a block read land in [buffer[0]], [buffer[1]], ...;
    the cells behind them keep what they held. *)
Fixpoint store_bytes (data : list Z) (i : Z) (f : Z -> Z) : Z -> Z :=
  match data with
  | [] => f
  | d :: data' => store_bytes data' (i + 1) (upd f i d)
  end.

(** *** The calls on [I2Cdev], with [buffer] as the destination *)

Definition I2Cdev_writeByte (dev reg data : Z) : M bool := fun s =>
  let d := to_uint8 data in
  let r := bus_writeByte dev reg d (bus s) in
  Some (fst r, record (snd r) (WriteByte dev reg d (fst r)) s).

Definition I2Cdev_writeBits (dev reg bitStart length data : Z) : M bool :=
  fun s =>
    let d := to_uint8 data in
    let r := bus_writeBits dev reg bitStart length d (bus s) in
    Some (fst r, record (snd r) (WriteBits dev reg bitStart length d (fst r)) s).

(** A single read stores into [buffer[0]] when the transfer succeeded
    and leaves the buffer alone otherwise. *)
Definition store_result (res : option Z) (s : st) : st :=
  match res with
  | Some v => set_buffer (upd (buffer s) 0 (to_uint8 v)) s
  | None => s
  end.

Definition I2Cdev_readByte (dev reg : Z) : M unit := fun s =>
  let r := bus_readByte dev reg (bus s) in
  Some (tt, record (snd r) (ReadByte dev reg (fst r)) (store_result (fst r) s)).

Definition I2Cdev_readBit (dev reg bitNum : Z) : M unit := fun s =>
  let r := bus_readBit dev reg bitNum (bus s) in
  Some (tt, record (snd r) (ReadBit dev reg bitNum (fst r))
                   (store_result (fst r) s)).

Definition I2Cdev_readBits (dev reg bitStart length : Z) : M unit := fun s =>
  let r := bus_readBits dev reg bitStart length (bus s) in
  Some (tt, record (snd r) (ReadBits dev reg bitStart length (fst r))
                   (store_result (fst r) s)).

(** The bytes a block read stores: what arrived, as bytes, and no more
    than was asked for. *)
Definition received (length : Z) (data : list Z) : list Z :=
  firstn (Z.to_nat length) (map to_uint8 data).

(** A block read answers the number of bytes it stored. *)
Definition I2Cdev_readBytes (dev reg length : Z) : M Z := fun s =>
  let r := bus_readBytes dev reg length (bus s) in
  let bytes := received length (fst r) in
  Some (Z.of_nat (List.length bytes),
        record (snd r) (ReadBytes dev reg length bytes)
               (set_buffer (store_bytes bytes 0 (buffer s)) s)).

Definition delayMicroseconds (us : Z) : M unit := fun s =>
  Some (tt, record (wait_us us (bus s)) (DelayMicroseconds us) s).

Definition delay (ms : Z) : M unit := fun s =>
  Some (tt, record (wait_ms ms (bus s)) (Delay ms) s).

(** *** Accesses to [scaleFactors] *)

Definition index_ok (g a : Z) : bool :=
  (0 <=? g) && (g <=? 7) && (0 <=? a) && (a <=? 2).

Definition get_scaleFactor (g a : Z) : M float := fun s =>
  if index_ok g a then Some (scaleFactors s g a, s) else None.

(** [scaleFactors[g][a] = v]. *)
Definition upd_scaleFactor (f : Z -> Z -> float) (g a : Z) (v : float)
  : Z -> Z -> float :=
  fun g' a' => if (g' =? g) && (a' =? a) then v else f g' a'.

Definition set_scaleFactor (g a : Z) (v : float) : M unit := fun s =>
  if index_ok g a
  then Some (tt, set_scaleFactors (upd_scaleFactor (scaleFactors s) g a v) s)
  else None.

(** [HMC5883L_LSB_PER_GAUS[g]], a table of eight entries. *)
Definition get_LSB_PER_GAUS (g : Z) : M float :=
  if index_ok g 0 then ret (HMC5883L_LSB_PER_GAUS g) else undefined.

(** *** The methods *)

(** The loop [for (uint8_t gain = ...; gain <= HMC5883L_GAIN_220;
    gain ++)] of [initialize]. *)
Fixpoint for_gain (fuel : nat) (gain : Z) (body : Z -> M unit) : M unit :=
  if gain <=? HMC5883L_GAIN_220 then
    match fuel with
    | O => undefined
    | S fuel' => body gain ;;; for_gain fuel' (to_uint8 (gain + 1)) body
    end
  else ret tt.

Definition setGain (newGain : Z) : M unit :=
  dev <- gets devAddr ;;
  ack <- I2Cdev_writeByte dev HMC5883L_RA_CONFIG_B
           (Z.shiftl newGain
              (HMC5883L_CRB_GAIN_BIT - HMC5883L_CRB_GAIN_LENGTH + 1)) ;;
  if ack then fun s => Some (tt, set_gain newGain s) else ret tt.

Definition setMode (newMode : Z) : M unit :=
  dev <- gets devAddr ;;
  mode_ <- gets mode ;;
  I2Cdev_writeByte dev HMC5883L_RA_MODE
    (Z.shiftl mode_ (HMC5883L_MODEREG_BIT - HMC5883L_MODEREG_LENGTH + 1)) ;;;
  fun s => Some (tt, set_mode newMode s).

Definition initialize : M unit :=
  delayMicroseconds HMC5883L_READY_FOR_I2C_COMMAND ;;;
  dev <- gets devAddr ;;
  I2Cdev_writeByte dev HMC5883L_RA_CONFIG_A
    (Z.lor
       (Z.lor
          (Z.shiftl HMC5883L_AVERAGING_8
             (HMC5883L_CRA_AVERAGE_BIT - HMC5883L_CRA_AVERAGE_LENGTH + 1))
          (Z.shiftl HMC5883L_RATE_15
             (HMC5883L_CRA_RATE_BIT - HMC5883L_CRA_RATE_LENGTH + 1)))
       (Z.shiftl HMC5883L_BIAS_NORMAL
          (HMC5883L_CRA_BIAS_BIT - HMC5883L_CRA_BIAS_LENGTH + 1))) ;;;
  setGain HMC5883L_GAIN_1090 ;;;
  setMode HMC5883L_MODE_SINGLE ;;;
  for_gain 256 HMC5883L_GAIN_1370 (fun gain =>
    set_scaleFactor gain 0 Float32.one ;;;
    set_scaleFactor gain 1 Float32.one ;;;
    set_scaleFactor gain 2 Float32.one).

Definition testConnection : M bool :=
  dev <- gets devAddr ;;
  count <- I2Cdev_readBytes dev HMC5883L_RA_ID_A 3 ;;
  if count =? 3 then
    buf <- gets buffer ;;
    ret ((buf 0 =? char_H) && (buf 1 =? char_4) && (buf 2 =? char_3))
  else ret false.

Definition getSampleAveraging : M Z :=
  dev <- gets devAddr ;;
  I2Cdev_readBits dev HMC5883L_RA_CONFIG_A
    HMC5883L_CRA_AVERAGE_BIT HMC5883L_CRA_AVERAGE_LENGTH ;;;
  buf <- gets buffer ;; ret (buf 0).

Definition setSampleAveraging (averaging : Z) : M unit :=
  dev <- gets devAddr ;;
  I2Cdev_writeBits dev HMC5883L_RA_CONFIG_A
    HMC5883L_CRA_AVERAGE_BIT HMC5883L_CRA_AVERAGE_LENGTH averaging ;;;
  ret tt.

Definition getDataRate : M Z :=
  dev <- gets devAddr ;;
  I2Cdev_readBits dev HMC5883L_RA_CONFIG_A
    HMC5883L_CRA_RATE_BIT HMC5883L_CRA_RATE_LENGTH ;;;
  buf <- gets buffer ;; ret (buf 0).

Definition setDataRate (rate : Z) : M unit :=
  dev <- gets devAddr ;;
  I2Cdev_writeBits dev HMC5883L_RA_CONFIG_A
    HMC5883L_CRA_RATE_BIT HMC5883L_CRA_RATE_LENGTH rate ;;;
  ret tt.

Definition getMeasurementBias : M Z :=
  dev <- gets devAddr ;;
  I2Cdev_readBits dev HMC5883L_RA_CONFIG_A
    HMC5883L_CRA_BIAS_BIT HMC5883L_CRA_BIAS_LENGTH ;;;
  buf <- gets buffer ;; ret (buf 0).

Definition setMeasurementBias (bias : Z) : M unit :=
  dev <- gets devAddr ;;
  I2Cdev_writeBits dev HMC5883L_RA_CONFIG_A
    HMC5883L_CRA_BIAS_BIT HMC5883L_CRA_BIAS_LENGTH bias ;;;
  ret tt.

Definition getGain : M Z :=
  dev <- gets devAddr ;;
  I2Cdev_readBits dev HMC5883L_RA_CONFIG_B
    HMC5883L_CRB_GAIN_BIT HMC5883L_CRB_GAIN_LENGTH ;;;
  buf <- gets buffer ;; ret (buf 0).

Definition getMode : M Z :=
  dev <- gets devAddr ;;
  I2Cdev_readBits dev HMC5883L_RA_MODE
    HMC5883L_MODEREG_BIT HMC5883L_MODEREG_LENGTH ;;;
  buf <- gets buffer ;; ret (buf 0).

Definition getRawHeading : M sample :=
  mode_ <- gets mode ;;
  (if mode_ =? HMC5883L_MODE_SINGLE then
     dev <- gets devAddr ;;
     I2Cdev_writeByte dev HMC5883L_RA_MODE
       (Z.shiftl HMC5883L_MODE_SINGLE
          (HMC5883L_MODEREG_BIT - HMC5883L_MODEREG_LENGTH + 1)) ;;;
     delay HMC5883L_MEASUREMENT_PERIOD
   else ret tt) ;;;
  dev <- gets devAddr ;;
  I2Cdev_readBytes dev HMC5883L_RA_DATAX_H 6 ;;;
  buf <- gets buffer ;;
  let x := to_int16 (Z.lor (Z.shiftl (buf 0) 8) (buf 1)) in
  let y := to_int16 (Z.lor (Z.shiftl (buf 4) 8) (buf 5)) in
  let z := to_int16 (Z.lor (Z.shiftl (buf 2) 8) (buf 3)) in
  ret (x, y, z).

Definition getHeading : M sample :=
  raw <- getRawHeading ;;
  let '(rawx, rawy, rawz) := raw in
  gain_ <- gets gain ;;
  fx <- get_scaleFactor gain_ 0 ;;
  x <- lift_option (Float32.to_int16 (Float32.mul fx (Float32.of_int rawx))) ;;
  fy <- get_scaleFactor gain_ 1 ;;
  y <- lift_option (Float32.to_int16 (Float32.mul fy (Float32.of_int rawy))) ;;
  fz <- get_scaleFactor gain_ 2 ;;
  z <- lift_option (Float32.to_int16 (Float32.mul fz (Float32.of_int rawz))) ;;
  ret (x, y, z).

Definition getHeadingX : M Z := h <- getHeading ;; ret (sample_x h).
Definition getHeadingY : M Z := h <- getHeading ;; ret (sample_y h).
Definition getHeadingZ : M Z := h <- getHeading ;; ret (sample_z h).

Definition getRawHeadingX : M Z := h <- getRawHeading ;; ret (sample_x h).
Definition getRawHeadingY : M Z := h <- getRawHeading ;; ret (sample_y h).
Definition getRawHeadingZ : M Z := h <- getRawHeading ;; ret (sample_z h).

Definition getLockStatus : M bool :=
  dev <- gets devAddr ;;
  I2Cdev_readBit dev HMC5883L_RA_STATUS HMC5883L_STATUS_LOCK_BIT ;;;
  buf <- gets buffer ;; ret (negb (buf 0 =? 0)).

Definition getReadyStatus : M bool :=
  dev <- gets devAddr ;;
  I2Cdev_readBit dev HMC5883L_RA_STATUS HMC5883L_STATUS_READY_BIT ;;;
  buf <- gets buffer ;; ret (negb (buf 0 =? 0)).

Definition getIDA : M Z :=
  dev <- gets devAddr ;;
  I2Cdev_readByte dev HMC5883L_RA_ID_A ;;;
  buf <- gets buffer ;; ret (buf 0).

Definition getIDB : M Z :=
  dev <- gets devAddr ;;
  I2Cdev_readByte dev HMC5883L_RA_ID_B ;;;
  buf <- gets buffer ;; ret (buf 0).

Definition getIDC : M Z :=
  dev <- gets devAddr ;;
  I2Cdev_readByte dev HMC5883L_RA_ID_C ;;;
  buf <- gets buffer ;; ret (buf 0).

(** [min(x, min(y, z)) == -4096]. *)
Definition overflowed (raw : sample) : bool :=
  Z.min (sample_x raw) (Z.min (sample_y raw) (sample_z raw)) =? -4096.

Definition calibrate (testGain : Z) : M bool :=
  previousGain <- getGain ;;
  gain_ <- gets gain ;;
  let testGain := if testGain <? 0 then to_int8 gain_ else testGain in
  setGain (to_uint8 testGain) ;;;
  setMeasurementBias HMC5883L_BIAS_POSITIVE ;;;
  setMode HMC5883L_MODE_SINGLE ;;;
  raw <- getRawHeading ;;
  if overflowed raw then
    set_scaleFactor testGain 0 Float32.one ;;;
    set_scaleFactor testGain 1 Float32.one ;;;
    set_scaleFactor testGain 2 Float32.one ;;;
    ret false
  else
    raw <- getRawHeading ;;
    if overflowed raw then
      set_scaleFactor testGain 0 Float32.one ;;;
      set_scaleFactor testGain 1 Float32.one ;;;
      set_scaleFactor testGain 2 Float32.one ;;;
      ret false
    else
      let '(x, y, z) := raw in
      lsbx <- get_LSB_PER_GAUS testGain ;;
      let xExpectedSelfTestValue :=
        Float32.mul HMC5883L_SELF_TEST_X_AXIS_ABSOLUTE_GAUSS lsbx in
      lsby <- get_LSB_PER_GAUS testGain ;;
      let yExpectedSelfTestValue :=
        Float32.mul HMC5883L_SELF_TEST_Y_AXIS_ABSOLUTE_GAUSS lsby in
      lsbz <- get_LSB_PER_GAUS testGain ;;
      let zExpectedSelfTestValue :=
        Float32.mul HMC5883L_SELF_TEST_Z_AXIS_ABSOLUTE_GAUSS lsbz in
      set_scaleFactor testGain 0
        (Float32.div xExpectedSelfTestValue (Float32.of_int x)) ;;;
      set_scaleFactor testGain 1
        (Float32.div yExpectedSelfTestValue (Float32.of_int y)) ;;;
      set_scaleFactor testGain 2
        (Float32.div zExpectedSelfTestValue (Float32.of_int z)) ;;;
      setGain previousGain ;;;
      setMeasurementBias HMC5883L_BIAS_NORMAL ;;;
      ret true.

(** Steps 1 to 3 of the self-test as [calibrate] runs them when the
    target gain is not negative: the gain of the device is read and kept,
    then the target gain, the positive bias and the single-measurement
    mode are set.  The theorems on [calibrate] name the states of a run
    through it. *)
Definition self_test_start (testGain : Z) : M Z :=
  previousGain <- getGain ;;
  setGain (to_uint8 testGain) ;;;
  setMeasurementBias HMC5883L_BIAS_POSITIVE ;;;
  setMode HMC5883L_MODE_SINGLE ;;;
  ret previousGain.

End Driver.

(** ** Reading a trace *)

Definition is_write_to (dev reg : Z) (e : event) : bool :=
  match e with
  | WriteByte d r _ _ => (d =? dev) && (r =? reg)
  | WriteBits d r _ _ _ _ => (d =? dev) && (r =? reg)
  | _ => false
  end.

(** The last write, of a byte or of a bit field, that a trace holds for
    a register of a device. *)
Definition last_write (dev reg : Z) (tr : list event) : option event :=
  fold_left (fun acc e => if is_write_to dev reg e then Some e else acc)
            tr None.

(** ** A simulated bus

    A bus that plays a script: the acknowledgements of the writes, the
    answers of the single reads and the blocks of the block reads, each
    consumed in order.  A write beyond the script is acknowledged, a read
    beyond it fails; the time that passes changes nothing. *)
Record SimBus : Type := mkSimBus {
  acks : list bool;
  answers : list (option Z);
  blocks : list (list Z)
}.

Definition sim_write (b : SimBus) : bool * SimBus :=
  match acks b with
  | [] => (true, b)
  | a :: l => (a, mkSimBus l (answers b) (blocks b))
  end.

Definition sim_read (b : SimBus) : option Z * SimBus :=
  match answers b with
  | [] => (None, b)
  | a :: l => (a, mkSimBus (acks b) l (blocks b))
  end.

Definition sim_readBytes (b : SimBus) : list Z * SimBus :=
  match blocks b with
  | [] => ([], b)
  | d :: l => (d, mkSimBus (acks b) (answers b) l)
  end.

#[export] Instance SimBus_I2Cdev : I2Cdev SimBus := {
  bus_writeByte := fun _ _ _ => sim_write;
  bus_writeBits := fun _ _ _ _ _ => sim_write;
  bus_readByte := fun _ _ => sim_read;
  bus_readBytes := fun _ _ _ => sim_readBytes;
  bus_readBit := fun _ _ _ => sim_read;
  bus_readBits := fun _ _ _ _ => sim_read
}.

#[export] Instance SimBus_Timing : Timing SimBus := {
  wait_us := fun _ b => b;
  wait_ms := fun _ b => b
}.

(** A header for the examples: delays of 200 us and 6 ms, a self-test
    field of 1.16, 1.16 and 1.08 gauss, and the LSB per gauss of the gain
    table in the documentation of [getGain]. *)
Definition example_LSB_PER_GAUS (g : Z) : float :=
  Float32.of_int (nth (Z.to_nat g) [1370; 1090; 820; 660; 440; 390; 330; 230] 0).

#[export] Instance example_header : Header := {
  HMC5883L_READY_FOR_I2C_COMMAND := 200;
  HMC5883L_MEASUREMENT_PERIOD := 6;
  HMC5883L_SELF_TEST_X_AXIS_ABSOLUTE_GAUSS :=
    Float32.div (Float32.of_int 116) (Float32.of_int 100);
  HMC5883L_SELF_TEST_Y_AXIS_ABSOLUTE_GAUSS :=
    Float32.div (Float32.of_int 116) (Float32.of_int 100);
  HMC5883L_SELF_TEST_Z_AXIS_ABSOLUTE_GAUSS :=
    Float32.div (Float32.of_int 108) (Float32.of_int 100);
  HMC5883L_LSB_PER_GAUS := example_LSB_PER_GAUS
}.

(** The default constructor: [devAddr] is the default address.  The other
    fields are not initialised by the source; the examples start them at
    zero. *)
Definition HMC5883L_new {B : Type} (b : B) : state B :=
  mkState HMC5883L_DEFAULT_ADDRESS (fun _ => 0) 0 0
          (fun _ _ => S754_zero false) b [].

(** ** Enumerating the 16-bit values *)

(** The integers from [lo], [n] of them. *)
Fixpoint zrange (n : nat) (lo : Z) : list Z :=
  match n with
  | O => []
  | S n' => lo :: zrange n' (lo + 1)
  end.

(** Scaling [v] by 1.0 and converting back gives [v]. *)
Definition scaled_by_one_is (v : Z) : bool :=
  match Float32.to_int16 (Float32.mul Float32.one (Float32.of_int v)) with
  | Some w => w =? v
  | None => false
  end.

(** ** States of the examples *)

(** The scale factor 0.5 at every gain and axis. *)
Definition half_scale (s : state SimBus) : state SimBus :=
  mkState (devAddr s) (buffer s) (mode s) (gain s)
          (fun _ _ => Float32.div (Float32.of_int 1) (Float32.of_int 2))
          (bus s) (trace s).

(** A driver whose cached mode is continuous. *)
Definition continuous (s : state SimBus) : state SimBus :=
  mkState (devAddr s) (buffer s) HMC5883L_MODE_CONTINUOUS (gain s)
          (scaleFactors s) (bus s) (trace s).

(** ** The constructor with an address, and what a trace addresses *)

(** [HMC5883L(uint8_t address)]: [devAddr] is the address given.  The
    other fields are not initialised by the source; the examples start
    them at zero. *)
Definition HMC5883L_new_at {B : Type} (address : Z) (b : B) : state B :=
  mkState (to_uint8 address) (fun _ => 0) 0 0 (fun _ _ => S754_zero false) b [].

(** The call is a call on the device [dev]; a delay is a call on none. *)
Definition addressed_to (dev : Z) (e : event) : bool :=
  match e with
  | WriteByte d _ _ _ => d =? dev
  | WriteBits d _ _ _ _ _ => d =? dev
  | ReadByte d _ _ => d =? dev
  | ReadBytes d _ _ _ => d =? dev
  | ReadBit d _ _ _ => d =? dev
  | ReadBits d _ _ _ _ => d =? dev
  | DelayMicroseconds _ => true
  | Delay _ => true
  end.

(** The value of a big-endian pair of bytes in two's complement. *)
Definition twos_complement (hi lo : Z) : Z :=
  if hi <? 128 then 256 * hi + lo else 256 * hi + lo - 65536.

(** The expression of [getRawHeading] on the pair gives that value. *)
Definition byte_pair_ok (hi lo : Z) : bool :=
  to_int16 (Z.lor (Z.shiftl hi 8) lo) =? twos_complement hi lo.

(** ** A trace against the bus *)

Section Interaction.

Context {B : Type} {I2C : I2Cdev B} {T : Timing B}.

(** The call of an event made on the bus [b]: the event with the answer
    this bus gives (of a block read, the bytes that are stored), and the
    bus afterwards. *)
Definition perform (e : event) (b : B) : event * B :=
  match e with
  | WriteByte dev reg data _ =>
      let r := bus_writeByte dev reg data b in
      (WriteByte dev reg data (fst r), snd r)
  | WriteBits dev reg bitStart length data _ =>
      let r := bus_writeBits dev reg bitStart length data b in
      (WriteBits dev reg bitStart length data (fst r), snd r)
  | ReadByte dev reg _ =>
      let r := bus_readByte dev reg b in (ReadByte dev reg (fst r), snd r)
  | ReadBytes dev reg length _ =>
      let r := bus_readBytes dev reg length b in
      (ReadBytes dev reg length (received length (fst r)), snd r)
  | ReadBit dev reg bitNum _ =>
      let r := bus_readBit dev reg bitNum b in
      (ReadBit dev reg bitNum (fst r), snd r)
  | ReadBits dev reg bitStart length _ =>
      let r := bus_readBits dev reg bitStart length b in
      (ReadBits dev reg bitStart length (fst r), snd r)
  | DelayMicroseconds us => (DelayMicroseconds us, wait_us us b)
  | Delay ms => (Delay ms, wait_ms ms b)
  end.

(** The calls [evs] made one after the other on the bus [b] got the
    answers they carry and left the bus [b']. *)
Fixpoint answered (evs : list event) (b b' : B) : Prop :=
  match evs with
  | [] => b' = b
  | e :: evs' => fst (perform e b) = e /\ answered evs' (snd (perform e b)) b'
  end.

(** What a computation adds to the trace is what the bus answered to it,
    call after call, and the bus it leaves is the bus these calls left. *)
Definition sound {A : Type} (c : state B -> option (A * state B)) : Prop :=
  forall (s s' : state B) (r : A),
    c s = Some (r, s') ->
    exists evs : list event,
      trace s' = trace s ++ evs /\ answered evs (bus s) (bus s').

End Interaction.

(** * Properties *)

(** ** Bytes and fields *)

Lemma gain_cases (g : Z) :
  0 <= g <= 7 ->
  g = 0 \/ g = 1 \/ g = 2 \/ g = 3 \/ g = 4 \/ g = 5 \/ g = 6 \/ g = 7.
Proof. lia. Qed.

(** A gain of three bits shifted to bits 7-5 is a byte whose bits 4-0
    are zero. *)
Lemma gain_byte (g : Z) :
  0 <= g <= 7 ->
  to_uint8 (Z.shiftl g 5) = Z.shiftl g 5 /\ Z.land (Z.shiftl g 5) 31 = 0.
Proof.
  intros Hg.
  destruct (gain_cases g Hg) as [-> | [-> | [-> | [-> | [-> | [-> | [-> | ->]]]]]]];
    split; reflexivity.
Qed.

Lemma to_uint8_small (z : Z) : 0 <= z < 256 -> to_uint8 z = z.
Proof. intros Hz. unfold to_uint8. apply Z.mod_small. exact Hz. Qed.

Lemma to_uint8_range (z : Z) : 0 <= to_uint8 z < 256.
Proof. unfold to_uint8. apply Z.mod_pos_bound. lia. Qed.

Lemma index_ok_gain (g a : Z) :
  0 <= g <= 7 -> 0 <= a <= 2 -> index_ok g a = true.
Proof. intros Hg Ha. unfold index_ok. repeat (apply andb_true_intro; split); lia. Qed.

(** ** The trace *)

Lemma last_write_snoc (dev reg : Z) (tr : list event) (e : event) :
  last_write dev reg (tr ++ [e]) =
  if is_write_to dev reg e then Some e else last_write dev reg tr.
Proof. unfold last_write. rewrite fold_left_app. reflexivity. Qed.

(** ** Floats *)

(** [Float32.trunc] rounds toward zero: a finite float is the fraction
    of [sign * m * 2^max(e,0)] over [2^max(-e,0)], and its truncation is
    the quotient of the two that [Z.quot] rounds toward zero. *)
Lemma trunc_toward_zero (sg : bool) (m : positive) (e : Z) :
  Float32.trunc (S754_finite sg m e) =
  Some (Z.quot (cond_Zopp sg (Zpos m) * 2 ^ Z.max e 0) (2 ^ Z.max (- e) 0)).
Proof.
  unfold Float32.trunc. f_equal.
  destruct (Z.le_gt_cases 0 e) as [He | He].
  - rewrite (Z.max_l e 0), (Z.max_r (- e) 0) by lia.
    rewrite Z.pow_0_r, Z.quot_1_r, Z.shiftl_mul_pow2 by lia.
    destruct sg; cbn [cond_Zopp]; lia.
  - rewrite (Z.max_r e 0), (Z.max_l (- e) 0) by lia.
    rewrite Z.pow_0_r, Z.mul_1_r, Z.shiftl_div_pow2 by lia.
    assert (Hpow : 0 < 2 ^ (- e)) by (apply Z.pow_pos_nonneg; lia).
    destruct sg; cbn [cond_Zopp].
    + rewrite Z.quot_opp_l by lia. rewrite Z.quot_div_nonneg by lia. reflexivity.
    + rewrite Z.quot_div_nonneg by lia. reflexivity.
Qed.

Lemma zrange_In (n : nat) (lo v : Z) :
  lo <= v < lo + Z.of_nat n -> In v (zrange n lo).
Proof.
  revert lo. induction n as [|n IH]; intros lo Hv.
  - lia.
  - cbn [zrange]. destruct (Z.eq_dec lo v) as [-> | Hne].
    + left. reflexivity.
    + right. apply IH. lia.
Qed.

(** A scale factor of 1.0 gives every 16-bit value back, the boundary
    values and the sentinel among them. *)
Lemma scaled_by_one (v : Z) :
  -32768 <= v <= 32767 ->
  Float32.to_int16 (Float32.mul Float32.one (Float32.of_int v)) = Some v.
Proof.
  intros Hv.
  assert (Hall : forallb scaled_by_one_is (zrange (Z.to_nat 65536) (-32768)) = true)
    by (vm_compute; reflexivity).
  rewrite forallb_forall in Hall.
  assert (Hin : In v (zrange (Z.to_nat 65536) (-32768)))
    by (apply zrange_In; lia).
  specialize (Hall v Hin).
  unfold scaled_by_one_is in Hall.
  destruct (Float32.to_int16 _) as [w|]; [|discriminate].
  apply Z.eqb_eq in Hall. congruence.
Qed.

Lemma last_app_cons (tr evs : list event) (e d : event) :
  last (tr ++ e :: evs) d = last (e :: evs) d.
Proof.
  induction tr as [|e' tr IH]; [reflexivity|].
  cbn [app]. rewrite <- IH.
  destruct (tr ++ e :: evs) eqn:E; [|reflexivity].
  destruct tr; discriminate.
Qed.

Section DriverProofs.

Context {B : Type} {I2C : I2Cdev B} {T : Timing B} {H : Header}.

Abbreviation st := (state B).

(** ** What each method does to the state *)

Lemma setGain_run (g : Z) (s : st) :
  let d := to_uint8 (Z.shiftl g 5) in
  let r := bus_writeByte (devAddr s) HMC5883L_RA_CONFIG_B d (bus s) in
  let s1 := record (snd r) (WriteByte (devAddr s) HMC5883L_RA_CONFIG_B d (fst r)) s in
  setGain g s = Some (tt, if fst r then set_gain g s1 else s1).
Proof.
  unfold setGain, bind, gets, I2Cdev_writeByte, ret. simpl.
  destruct (fst (bus_writeByte _ _ _ _)); reflexivity.
Qed.

Lemma setMode_run (m : Z) (s : st) :
  let d := to_uint8 (Z.shiftl (mode s) 0) in
  let r := bus_writeByte (devAddr s) HMC5883L_RA_MODE d (bus s) in
  setMode m s =
  Some (tt, set_mode m
              (record (snd r) (WriteByte (devAddr s) HMC5883L_RA_MODE d (fst r)) s)).
Proof. reflexivity. Qed.

Lemma setMeasurementBias_run (bias : Z) (s : st) :
  let d := to_uint8 bias in
  let r := bus_writeBits (devAddr s) HMC5883L_RA_CONFIG_A
             HMC5883L_CRA_BIAS_BIT HMC5883L_CRA_BIAS_LENGTH d (bus s) in
  setMeasurementBias bias s =
  Some (tt, record (snd r)
              (WriteBits (devAddr s) HMC5883L_RA_CONFIG_A
                 HMC5883L_CRA_BIAS_BIT HMC5883L_CRA_BIAS_LENGTH d (fst r)) s).
Proof. reflexivity. Qed.

Lemma getGain_run (s : st) :
  let r := bus_readBits (devAddr s) HMC5883L_RA_CONFIG_B
             HMC5883L_CRB_GAIN_BIT HMC5883L_CRB_GAIN_LENGTH (bus s) in
  let s1 := record (snd r)
              (ReadBits (devAddr s) HMC5883L_RA_CONFIG_B
                 HMC5883L_CRB_GAIN_BIT HMC5883L_CRB_GAIN_LENGTH (fst r))
              (store_result (fst r) s) in
  getGain s = Some (buffer s1 0, s1).
Proof.
  unfold getGain, bind, gets, I2Cdev_readBits, ret. simpl.
  destruct (fst (bus_readBits _ _ _ _ _)); reflexivity.
Qed.

Lemma received_length (n : Z) (data : list Z) :
  (List.length (received n data) <= Z.to_nat n)%nat.
Proof. unfold received. apply firstn_le_length. Qed.

(** An acquisition always returns; it leaves the address, the cached
    mode and gain and the scale factors alone, triggers a measurement
    first when the cached mode is single, and decodes the sample from
    the buffer as the block read left it. *)
Lemma getRawHeading_run (s : st) :
  exists (ack : bool) (d : list Z) (s' : st),
    getRawHeading s =
    Some ((to_int16 (Z.lor (Z.shiftl (buffer s' 0) 8) (buffer s' 1)),
           to_int16 (Z.lor (Z.shiftl (buffer s' 4) 8) (buffer s' 5)),
           to_int16 (Z.lor (Z.shiftl (buffer s' 2) 8) (buffer s' 3))), s') /\
    devAddr s' = devAddr s /\ mode s' = mode s /\ gain s' = gain s /\
    scaleFactors s' = scaleFactors s /\
    buffer s' = store_bytes d 0 (buffer s) /\
    trace s' =
    trace s ++
    (if mode s =? HMC5883L_MODE_SINGLE
     then [WriteByte (devAddr s) HMC5883L_RA_MODE HMC5883L_MODE_SINGLE ack;
           Delay HMC5883L_MEASUREMENT_PERIOD]
     else []) ++
    [ReadBytes (devAddr s) HMC5883L_RA_DATAX_H 6 d].
Proof.
  unfold getRawHeading.
  destruct (mode s =? HMC5883L_MODE_SINGLE) eqn:Em;
    lazy beta iota zeta
      delta [bind gets ret I2Cdev_writeByte I2Cdev_readBytes delay];
    rewrite ?Em; lazy beta iota zeta.
  - eexists _, _.
    match goal with |- exists s', Some (_, ?S) = _ /\ _ => exists S end.
    split; [reflexivity|].
    repeat split; try reflexivity.
    cbn [trace record set_buffer]. rewrite <- !app_assoc. reflexivity.
  - exists true. eexists _.
    match goal with |- exists s', Some (_, ?S) = _ /\ _ => exists S end.
    split; [reflexivity|]. repeat split; reflexivity.
Qed.

Lemma getRawHeading_frame (s s' : st) (raw : sample) :
  getRawHeading s = Some (raw, s') ->
  devAddr s' = devAddr s /\ mode s' = mode s /\ gain s' = gain s /\
  scaleFactors s' = scaleFactors s.
Proof.
  intros Hrun.
  destruct (getRawHeading_run s) as (ack & d & s1 & Heq & Ha & Hm & Hg & Hf & _).
  rewrite Heq in Hrun. injection Hrun as _ <-. auto.
Qed.

(** An acquisition against the bus: the trigger and the delay when the
    cached mode is single, then the block read of the bus as they left
    it; the bytes that arrived are stored, the bus is the one the block
    read left, and the sample is decoded from the buffer. *)
Lemma getRawHeading_pinned (s : st) :
  let trig :=
    bus_writeByte (devAddr s) HMC5883L_RA_MODE HMC5883L_MODE_SINGLE (bus s) in
  let b :=
    if mode s =? HMC5883L_MODE_SINGLE
    then wait_ms HMC5883L_MEASUREMENT_PERIOD (snd trig)
    else bus s in
  let rd := bus_readBytes (devAddr s) HMC5883L_RA_DATAX_H 6 b in
  let d := received 6 (fst rd) in
  exists s' : st,
    getRawHeading s =
    Some ((to_int16 (Z.lor (Z.shiftl (buffer s' 0) 8) (buffer s' 1)),
           to_int16 (Z.lor (Z.shiftl (buffer s' 4) 8) (buffer s' 5)),
           to_int16 (Z.lor (Z.shiftl (buffer s' 2) 8) (buffer s' 3))), s') /\
    buffer s' = store_bytes d 0 (buffer s) /\
    bus s' = snd rd /\
    trace s' =
    trace s ++
    (if mode s =? HMC5883L_MODE_SINGLE
     then [WriteByte (devAddr s) HMC5883L_RA_MODE HMC5883L_MODE_SINGLE (fst trig);
           Delay HMC5883L_MEASUREMENT_PERIOD]
     else []) ++
    [ReadBytes (devAddr s) HMC5883L_RA_DATAX_H 6 d].
Proof.
  cbv zeta. unfold getRawHeading.
  destruct (mode s =? HMC5883L_MODE_SINGLE) eqn:Em;
    lazy beta iota zeta
      delta [bind gets ret I2Cdev_writeByte I2Cdev_readBytes delay];
    rewrite ?Em; lazy beta iota zeta;
    match goal with |- exists s', Some (_, ?S) = _ /\ _ => exists S end;
    (split; [reflexivity|]); (split; [reflexivity|]); (split; [reflexivity|]);
    cbn [trace record set_buffer]; rewrite <- ?app_assoc; reflexivity.
Qed.

(** ** The claims on the accessors *)

(** C5: for a gain [g] in 0..7, [setGain g] writes to CONFIG_B the whole
    byte [g << 5], whose bits 4-0 are zero, and nothing else: the bus is
    the one this write left and the trace has this one call more.  The
    cached gain becomes [g] when the bus acknowledges the write and keeps
    its value when it does not; the rest of the driver is untouched. *)
Theorem setGain_writes_gain_byte (s : st) (g : Z) :
  0 <= g <= 7 ->
  let w :=
    bus_writeByte (devAddr s) HMC5883L_RA_CONFIG_B (Z.shiftl g 5) (bus s) in
  let ack := fst w in
  exists s' : st,
    setGain g s = Some (tt, s') /\
    bus s' = snd w /\
    trace s' =
    trace s ++ [WriteByte (devAddr s) HMC5883L_RA_CONFIG_B (Z.shiftl g 5) ack] /\
    Z.land (Z.shiftl g 5) 31 = 0 /\
    gain s' = (if ack then g else gain s) /\
    devAddr s' = devAddr s /\ mode s' = mode s /\
    buffer s' = buffer s /\ scaleFactors s' = scaleFactors s.
Proof.
  intros Hg w ack. destruct (gain_byte g Hg) as [Hbyte Hlow].
  pose proof (setGain_run g s) as Hrun. cbv zeta in Hrun.
  rewrite Hbyte in Hrun. fold w in Hrun. fold ack in Hrun.
  eexists. split; [exact Hrun|].
  destruct ack; cbn [bus trace gain devAddr mode buffer scaleFactors
                     set_gain record]; repeat split; auto.
Qed.

(** C9: [testConnection] issues one block read of 3 bytes at ID_A, on
    the bus as it is, and returns true exactly when the bytes the bus
    hands over are 'H', '4', '3'; a short read or any other byte makes it
    return false.  The bytes are left in the buffer. *)
Theorem testConnection_true_iff_H43 (s : st) :
  let rd := bus_readBytes (devAddr s) HMC5883L_RA_ID_A 3 (bus s) in
  let d := received 3 (fst rd) in
  exists (r : bool) (s' : st),
    testConnection s = Some (r, s') /\
    bus s' = snd rd /\
    buffer s' = store_bytes d 0 (buffer s) /\
    trace s' = trace s ++ [ReadBytes (devAddr s) HMC5883L_RA_ID_A 3 d] /\
    (r = true <-> d = [char_H; char_4; char_3]).
Proof.
  cbv zeta.
  unfold testConnection, bind, gets, I2Cdev_readBytes. cbv zeta.
  pose proof (received_length 3
                (fst (bus_readBytes (devAddr s) HMC5883L_RA_ID_A 3 (bus s)))) as Hlen.
  set (d := received 3 _) in *. clearbody d.
  destruct d as [|b0 [|b1 [|b2 [|b3 d']]]]; simpl in Hlen; try lia;
    simpl; eexists _, _; (split; [reflexivity|]); (split; [reflexivity|]);
    (split; [reflexivity|]); (split; [reflexivity|]);
    try (split; [discriminate | discriminate]).
  unfold upd, ret. simpl. rewrite !andb_true_iff, !Z.eqb_eq.
  split.
  - intros [[-> ->] ->]. reflexivity.
  - intros Heq. injection Heq as -> -> ->. auto.
Qed.

(** C6: an acquisition reads 6 bytes in one block read starting at the
    X-high data register, on the bus as the trigger and the delay left
    it when the cached mode is single and as it is otherwise, and
    decodes the bytes the bus hands over as big-endian signed 16-bit
    values in the order X, Z, Y of the wire; the bytes 1, 2, 3, 4, 5, 6
    give X = 0x0102, Z = 0x0304, Y = 0x0506. *)
Theorem getRawHeading_decodes_x_z_y (s : st) :
  let trig :=
    bus_writeByte (devAddr s) HMC5883L_RA_MODE HMC5883L_MODE_SINGLE (bus s) in
  let b :=
    if mode s =? HMC5883L_MODE_SINGLE
    then wait_ms HMC5883L_MEASUREMENT_PERIOD (snd trig)
    else bus s in
  let rd := bus_readBytes (devAddr s) HMC5883L_RA_DATAX_H 6 b in
  let d := received 6 (fst rd) in
  exists (raw : sample) (s' : st),
    getRawHeading s = Some (raw, s') /\
    bus s' = snd rd /\
    trace s' =
    trace s ++
    (if mode s =? HMC5883L_MODE_SINGLE
     then [WriteByte (devAddr s) HMC5883L_RA_MODE HMC5883L_MODE_SINGLE (fst trig);
           Delay HMC5883L_MEASUREMENT_PERIOD]
     else []) ++
    [ReadBytes (devAddr s) HMC5883L_RA_DATAX_H 6 d] /\
    (forall b0 b1 b2 b3 b4 b5 : Z,
        d = [b0; b1; b2; b3; b4; b5] ->
        sample_x raw = to_int16 (Z.lor (Z.shiftl b0 8) b1) /\
        sample_z raw = to_int16 (Z.lor (Z.shiftl b2 8) b3) /\
        sample_y raw = to_int16 (Z.lor (Z.shiftl b4 8) b5)) /\
    (d = [0x01; 0x02; 0x03; 0x04; 0x05; 0x06] ->
     sample_x raw = 0x0102 /\ sample_z raw = 0x0304 /\ sample_y raw = 0x0506).
Proof.
  pose proof (getRawHeading_pinned s) as Hpin. cbv zeta in Hpin |- *.
  destruct Hpin as (s' & Hrun & Hbuf & Hbus & Htr).
  eexists _, s'. split; [exact Hrun|]. split; [exact Hbus|]. split; [exact Htr|].
  set (d := received 6 _) in *. clearbody d.
  assert (Hdec : forall b0 b1 b2 b3 b4 b5 : Z,
             d = [b0; b1; b2; b3; b4; b5] ->
             buffer s' 0 = b0 /\ buffer s' 1 = b1 /\ buffer s' 2 = b2 /\
             buffer s' 3 = b3 /\ buffer s' 4 = b4 /\ buffer s' 5 = b5).
  { intros b0 b1 b2 b3 b4 b5 ->. rewrite Hbuf. repeat split; reflexivity. }
  split.
  - intros b0 b1 b2 b3 b4 b5 Hd.
    destruct (Hdec _ _ _ _ _ _ Hd) as (-> & -> & -> & -> & -> & ->).
    repeat split; reflexivity.
  - intros Hd.
    destruct (Hdec _ _ _ _ _ _ Hd) as (-> & -> & -> & -> & -> & ->).
    repeat split; reflexivity.
Qed.

(** ** The self-test *)

Notation "x <- m ;; k" := (bind m (fun x => k))
  (at level 61, m at next level, right associativity).
Notation "m ;;; k" := (bind m (fun _ => k))
  (at level 61, right associativity).

Lemma overflowed_iff (raw : sample) :
  overflowed raw = true <->
  some_axis_is (-4096) raw /\ no_axis_below (-4096) raw.
Proof.
  unfold overflowed, some_axis_is, no_axis_below. rewrite Z.eqb_eq. lia.
Qed.


(** The three writes to the row of a gain 0..7, in a row. *)
Lemma set_row_run {A : Type} (g : Z) (v0 v1 v2 : float) (k : M A) (s : st) :
  0 <= g <= 7 ->
  (set_scaleFactor g 0 v0 ;;; set_scaleFactor g 1 v1 ;;;
   set_scaleFactor g 2 v2 ;;; k) s =
  k (set_scaleFactors
       (upd_scaleFactor
          (upd_scaleFactor (upd_scaleFactor (scaleFactors s) g 0 v0) g 1 v1)
          g 2 v2) s).
Proof.
  intros Hg. unfold bind, set_scaleFactor.
  rewrite !index_ok_gain by lia. reflexivity.
Qed.

Lemma row_written (f : Z -> Z -> float) (g : Z) (v0 v1 v2 : float) :
  let f' := upd_scaleFactor (upd_scaleFactor (upd_scaleFactor f g 0 v0) g 1 v1)
                            g 2 v2 in
  f' g 0 = v0 /\ f' g 1 = v1 /\ f' g 2 = v2 /\
  forall g' a : Z, g' <> g -> f' g' a = f g' a.
Proof.
  unfold upd_scaleFactor. cbv zeta. rewrite !Z.eqb_refl.
  repeat split; try reflexivity.
  intros g' a Hne. apply Z.eqb_neq in Hne. rewrite Hne. reflexivity.
Qed.

Lemma self_test_start_total (g : Z) (s : st) :
  exists (prev : Z) (s4 : st), self_test_start g s = Some (prev, s4).
Proof.
  unfold self_test_start, bind.
  rewrite getGain_run. cbv beta iota zeta.
  rewrite setGain_run. cbv beta iota zeta.
  rewrite setMeasurementBias_run. cbv beta iota zeta.
  rewrite setMode_run. cbv beta iota zeta.
  eexists _, _. reflexivity.
Qed.

(** The state steps 1 to 3 leave: the cached mode is single, the scale
    factors are untouched, and the bus saw the read of the gain and the
    writes of the target gain, of the positive bias and of the mode
    register, in this order. *)
Lemma self_test_start_spec (g prev : Z) (s s4 : st) :
  0 <= g <= 7 ->
  self_test_start g s = Some (prev, s4) ->
  devAddr s4 = devAddr s /\ mode s4 = HMC5883L_MODE_SINGLE /\
  scaleFactors s4 = scaleFactors s /\
  exists (res : option Z) (a1 a2 a3 : bool),
    trace s4 =
    trace s ++
    [ReadBits (devAddr s) HMC5883L_RA_CONFIG_B
       HMC5883L_CRB_GAIN_BIT HMC5883L_CRB_GAIN_LENGTH res;
     WriteByte (devAddr s) HMC5883L_RA_CONFIG_B (Z.shiftl g 5) a1;
     WriteBits (devAddr s) HMC5883L_RA_CONFIG_A
       HMC5883L_CRA_BIAS_BIT HMC5883L_CRA_BIAS_LENGTH HMC5883L_BIAS_POSITIVE a2;
     WriteByte (devAddr s) HMC5883L_RA_MODE
       (to_uint8 (Z.shiftl (mode s) 0)) a3] /\
    gain s4 = (if a1 then g else gain s).
Proof.
  intros Hg Hrun. destruct (gain_byte g Hg) as [Hbyte _].
  unfold self_test_start, bind in Hrun.
  rewrite (to_uint8_small g) in Hrun by lia.
  rewrite getGain_run in Hrun. cbv beta iota zeta in Hrun.
  rewrite setGain_run in Hrun. cbv beta iota zeta in Hrun.
  rewrite setMeasurementBias_run in Hrun. cbv beta iota zeta in Hrun.
  rewrite setMode_run in Hrun. cbv beta iota zeta in Hrun.
  rewrite Hbyte in Hrun.
  injection Hrun as _ <-.
  destruct (fst (bus_readBits (devAddr s) HMC5883L_RA_CONFIG_B
                   HMC5883L_CRB_GAIN_BIT HMC5883L_CRB_GAIN_LENGTH (bus s)))
    as [v|] eqn:Eres;
    cbn [store_result];
    match goal with
    | |- context [if fst ?w then _ else _] => destruct (fst w) eqn:Eack
    end;
    (repeat split; try reflexivity);
    eexists _, _, _, _; cbn [trace record set_mode set_gain set_buffer];
    rewrite <- !app_assoc; cbn [app];
    (split; [reflexivity|]); cbn [gain record set_mode set_gain set_buffer];
    reflexivity.
Qed.

(** [calibrate], for a target gain 0..7, is steps 1 to 3 followed by the
    acquisitions and what they lead to. *)
Lemma calibrate_after_start (g prev : Z) (s s4 : st) :
  0 <= g <= 7 ->
  self_test_start g s = Some (prev, s4) ->
  calibrate g s =
  (raw <- getRawHeading ;;
   if overflowed raw then
     set_scaleFactor g 0 Float32.one ;;;
     set_scaleFactor g 1 Float32.one ;;;
     set_scaleFactor g 2 Float32.one ;;;
     ret false
   else
     raw <- getRawHeading ;;
     if overflowed raw then
       set_scaleFactor g 0 Float32.one ;;;
       set_scaleFactor g 1 Float32.one ;;;
       set_scaleFactor g 2 Float32.one ;;;
       ret false
     else
       let '(x, y, z) := raw in
       lsbx <- get_LSB_PER_GAUS g ;;
       lsby <- get_LSB_PER_GAUS g ;;
       lsbz <- get_LSB_PER_GAUS g ;;
       set_scaleFactor g 0
         (Float32.div
            (Float32.mul HMC5883L_SELF_TEST_X_AXIS_ABSOLUTE_GAUSS lsbx)
            (Float32.of_int x)) ;;;
       set_scaleFactor g 1
         (Float32.div
            (Float32.mul HMC5883L_SELF_TEST_Y_AXIS_ABSOLUTE_GAUSS lsby)
            (Float32.of_int y)) ;;;
       set_scaleFactor g 2
         (Float32.div
            (Float32.mul HMC5883L_SELF_TEST_Z_AXIS_ABSOLUTE_GAUSS lsbz)
            (Float32.of_int z)) ;;;
       setGain prev ;;;
       setMeasurementBias HMC5883L_BIAS_NORMAL ;;;
       ret true) s4.
Proof.
  intros Hg Hrun.
  assert (Hneg : (g <? 0) = false) by (apply Z.ltb_ge; lia).
  unfold calibrate. rewrite Hneg.
  unfold self_test_start in Hrun. unfold bind at 1 2. unfold bind at 1 in Hrun.
  destruct (getGain s) as [[p s1]|]; [|discriminate].
  unfold gets at 1. cbv beta iota zeta.
  unfold bind at 1. unfold bind at 1 in Hrun.
  destruct (setGain (to_uint8 g) s1) as [[[] s2]|]; [|discriminate].
  unfold bind at 1. unfold bind at 1 in Hrun.
  destruct (setMeasurementBias HMC5883L_BIAS_POSITIVE s2) as [[[] s3]|];
    [|discriminate].
  unfold bind at 1. unfold bind at 1 in Hrun.
  destruct (setMode HMC5883L_MODE_SINGLE s3) as [[[] s4']|]; [|discriminate].
  injection Hrun as -> ->. reflexivity.
Qed.

Lemma getRawHeading_total (s : st) :
  exists (raw : sample) (s' : st), getRawHeading s = Some (raw, s').
Proof.
  destruct (getRawHeading_run s) as (ack & d & s' & Hrun & _).
  eexists _, s'. exact Hrun.
Qed.

(** In single mode an acquisition is a trigger, a delay and the block
    read. *)
Lemma getRawHeading_single_trace (s s' : st) (raw : sample) :
  mode s = HMC5883L_MODE_SINGLE ->
  getRawHeading s = Some (raw, s') ->
  exists (ack : bool) (d : list Z),
    trace s' =
    trace s ++
    [WriteByte (devAddr s) HMC5883L_RA_MODE HMC5883L_MODE_SINGLE ack;
     Delay HMC5883L_MEASUREMENT_PERIOD;
     ReadBytes (devAddr s) HMC5883L_RA_DATAX_H 6 d].
Proof.
  intros Hmode Hrun.
  destruct (getRawHeading_run s) as (ack & d & s1 & Heq & _ & _ & _ & _ & _ & Htr).
  rewrite Heq in Hrun. injection Hrun as _ <-.
  rewrite Hmode in Htr. exists ack, d. exact Htr.
Qed.

Lemma last_write_app (dev reg : Z) (tr evs : list event) :
  last_write dev reg (tr ++ evs) =
  match last_write dev reg evs with
  | Some e => Some e
  | None => last_write dev reg tr
  end.
Proof.
  induction evs as [|e evs IH] using rev_ind.
  - rewrite app_nil_r. reflexivity.
  - rewrite app_assoc, !last_write_snoc, IH.
    destruct (is_write_to dev reg e); reflexivity.
Qed.

(** The three ways through [calibrate] after steps 1 to 3, with the
    state each one ends in. *)
Lemma calibrate_fail_first (s s4 s5 : st) (g prev : Z) (raw1 : sample) :
  0 <= g <= 7 ->
  self_test_start g s = Some (prev, s4) ->
  getRawHeading s4 = Some (raw1, s5) ->
  overflowed raw1 = true ->
  calibrate g s =
  Some (false,
        set_scaleFactors
          (upd_scaleFactor
             (upd_scaleFactor
                (upd_scaleFactor (scaleFactors s5) g 0 Float32.one)
                g 1 Float32.one)
             g 2 Float32.one) s5).
Proof.
  intros Hg Hstart Hacq1 Hov.
  rewrite (calibrate_after_start g prev s s4 Hg Hstart).
  unfold bind at 1. rewrite Hacq1, Hov.
  rewrite set_row_run by exact Hg. reflexivity.
Qed.

Lemma calibrate_fail_second (s s4 s5 s6 : st) (g prev : Z) (raw1 raw2 : sample) :
  0 <= g <= 7 ->
  self_test_start g s = Some (prev, s4) ->
  getRawHeading s4 = Some (raw1, s5) ->
  overflowed raw1 = false ->
  getRawHeading s5 = Some (raw2, s6) ->
  overflowed raw2 = true ->
  calibrate g s =
  Some (false,
        set_scaleFactors
          (upd_scaleFactor
             (upd_scaleFactor
                (upd_scaleFactor (scaleFactors s6) g 0 Float32.one)
                g 1 Float32.one)
             g 2 Float32.one) s6).
Proof.
  intros Hg Hstart Hacq1 Hov1 Hacq2 Hov2.
  rewrite (calibrate_after_start g prev s s4 Hg Hstart).
  unfold bind at 1. rewrite Hacq1, Hov1.
  unfold bind at 1. rewrite Hacq2, Hov2.
  rewrite set_row_run by exact Hg. reflexivity.
Qed.

Lemma calibrate_pass (s s4 s5 s6 : st) (g prev : Z) (raw1 raw2 : sample) :
  0 <= g <= 7 ->
  self_test_start g s = Some (prev, s4) ->
  getRawHeading s4 = Some (raw1, s5) ->
  overflowed raw1 = false ->
  getRawHeading s5 = Some (raw2, s6) ->
  overflowed raw2 = false ->
  exists (a1 a2 : bool) (s' : st),
    calibrate g s = Some (true, s') /\
    scaleFactors s' =
    upd_scaleFactor
      (upd_scaleFactor
         (upd_scaleFactor (scaleFactors s6) g 0
            (Float32.div
               (Float32.mul HMC5883L_SELF_TEST_X_AXIS_ABSOLUTE_GAUSS
                  (HMC5883L_LSB_PER_GAUS g))
               (Float32.of_int (sample_x raw2))))
         g 1
         (Float32.div
            (Float32.mul HMC5883L_SELF_TEST_Y_AXIS_ABSOLUTE_GAUSS
               (HMC5883L_LSB_PER_GAUS g))
            (Float32.of_int (sample_y raw2))))
      g 2
      (Float32.div
         (Float32.mul HMC5883L_SELF_TEST_Z_AXIS_ABSOLUTE_GAUSS
            (HMC5883L_LSB_PER_GAUS g))
         (Float32.of_int (sample_z raw2))) /\
    trace s' =
    trace s6 ++
    [WriteByte (devAddr s) HMC5883L_RA_CONFIG_B (to_uint8 (Z.shiftl prev 5)) a1;
     WriteBits (devAddr s) HMC5883L_RA_CONFIG_A
       HMC5883L_CRA_BIAS_BIT HMC5883L_CRA_BIAS_LENGTH HMC5883L_BIAS_NORMAL a2] /\
    gain s' = (if a1 then prev else gain s6).
Proof.
  intros Hg Hstart Hacq1 Hov1 Hacq2 Hov2.
  destruct (self_test_start_spec g prev s s4 Hg Hstart) as (Hdev4 & _).
  destruct (getRawHeading_frame _ _ _ Hacq1) as (Hdev5 & _).
  destruct (getRawHeading_frame _ _ _ Hacq2) as (Hdev6 & _).
  rewrite (calibrate_after_start g prev s s4 Hg Hstart).
  unfold bind at 1. rewrite Hacq1, Hov1.
  unfold bind at 1. rewrite Hacq2, Hov2.
  destruct raw2 as [[x y] z]. cbn [sample_x sample_y sample_z fst snd].
  unfold get_LSB_PER_GAUS. rewrite (index_ok_gain g 0) by lia.
  unfold bind at 1 2 3. unfold ret at 1 2 3.
  rewrite set_row_run by exact Hg.
  unfold bind at 1. rewrite setGain_run. cbv beta iota zeta.
  unfold bind at 1. rewrite setMeasurementBias_run. cbv beta iota zeta.
  unfold ret.
  match goal with
  | |- context [if fst ?w then _ else _] => destruct (fst w) eqn:Eack
  end;
    eexists _, _, _; (split; [reflexivity|]);
    cbn [scaleFactors trace gain devAddr record set_gain set_scaleFactors];
    (split; [reflexivity|]);
    rewrite <- Hdev4, <- Hdev5, <- Hdev6, <- app_assoc; cbn [app];
    split; reflexivity.
Qed.

(** ** The claims on the self-test *)


(** C2, amended: for a target gain [g] in 0..7, when the first or the
    second acquisition of the self-test returns a sample in which some
    axis equals -4096 and no axis is below -4096, [calibrate g] returns
    false and row [g] of the scale factors is (1.0, 1.0, 1.0). *)
Theorem calibrate_overflow_fails_and_resets
    (s s4 s5 : st) (g prev : Z) (raw1 : sample) :
  0 <= g <= 7 ->
  self_test_start g s = Some (prev, s4) ->
  getRawHeading s4 = Some (raw1, s5) ->
  (some_axis_is (-4096) raw1 /\ no_axis_below (-4096) raw1) \/
  (exists (raw2 : sample) (s6 : st),
      getRawHeading s5 = Some (raw2, s6) /\
      some_axis_is (-4096) raw2 /\ no_axis_below (-4096) raw2) ->
  exists s' : st,
    calibrate g s = Some (false, s') /\
    scaleFactors s' g 0 = Float32.one /\
    scaleFactors s' g 1 = Float32.one /\
    scaleFactors s' g 2 = Float32.one.
Proof.
  intros Hg Hstart Hacq1 Hsentinel.
  destruct (overflowed raw1) eqn:Hov1.
  - eexists. split.
    + exact (calibrate_fail_first s s4 s5 g prev raw1 Hg Hstart Hacq1 Hov1).
    + cbn [scaleFactors set_scaleFactors].
      destruct (row_written (scaleFactors s5) g Float32.one Float32.one Float32.one)
        as (H0 & H1 & H2 & _). auto.
  - destruct Hsentinel as [Hs1 | (raw2 & s6 & Hacq2 & Hs2)].
    + apply overflowed_iff in Hs1. congruence.
    + apply overflowed_iff in Hs2. eexists. split.
      * exact (calibrate_fail_second s s4 s5 s6 g prev raw1 raw2
                 Hg Hstart Hacq1 Hov1 Hacq2 Hs2).
      * cbn [scaleFactors set_scaleFactors].
        destruct (row_written (scaleFactors s6) g Float32.one Float32.one Float32.one)
          as (H0 & H1 & H2 & _). auto.
Qed.

(** C3: when [calibrate g], for [g] in 0..7, finds the overflow in the
    first or in the second acquisition, it returns false with the bus and
    the trace as that acquisition left them: the block read of the
    acquisition is the last call, the last write to CONFIG_B is the
    target gain, the last write to CONFIG_A the positive bias, the last
    write to MODE the single mode, and the cached mode is single. *)
Theorem calibrate_overflow_no_restore
    (s s4 s5 s_fail : st) (g prev : Z) (raw1 : sample) :
  0 <= g <= 7 ->
  self_test_start g s = Some (prev, s4) ->
  getRawHeading s4 = Some (raw1, s5) ->
  (overflowed raw1 = true /\ s_fail = s5) \/
  (overflowed raw1 = false /\
   exists raw2 : sample,
     getRawHeading s5 = Some (raw2, s_fail) /\ overflowed raw2 = true) ->
  exists (a1 a2 a3 : bool) (d : list Z) (s' : st),
    calibrate g s = Some (false, s') /\
    trace s' = trace s_fail /\ bus s' = bus s_fail /\
    last (trace s') (Delay 0) =
    ReadBytes (devAddr s) HMC5883L_RA_DATAX_H 6 d /\
    last_write (devAddr s) HMC5883L_RA_CONFIG_B (trace s') =
    Some (WriteByte (devAddr s) HMC5883L_RA_CONFIG_B (Z.shiftl g 5) a1) /\
    last_write (devAddr s) HMC5883L_RA_CONFIG_A (trace s') =
    Some (WriteBits (devAddr s) HMC5883L_RA_CONFIG_A
            HMC5883L_CRA_BIAS_BIT HMC5883L_CRA_BIAS_LENGTH
            HMC5883L_BIAS_POSITIVE a2) /\
    last_write (devAddr s) HMC5883L_RA_MODE (trace s') =
    Some (WriteByte (devAddr s) HMC5883L_RA_MODE HMC5883L_MODE_SINGLE a3) /\
    mode s' = HMC5883L_MODE_SINGLE /\
    gain s' = (if a1 then g else gain s).
Proof.
  intros Hg Hstart Hacq1 Hfail.
  destruct (self_test_start_spec g prev s s4 Hg Hstart)
    as (Hdev4 & Hmode4 & _ & res & a1 & a2 & a0 & Htr4 & Hgain4).
  destruct (getRawHeading_frame _ _ _ Hacq1) as (Hdev5 & Hmode5 & Hgain5 & _).
  destruct (getRawHeading_single_trace _ _ _ Hmode4 Hacq1) as (a3 & d1 & Htr5).
  rewrite Hdev4 in Htr5. rewrite Htr4, <- app_assoc in Htr5. cbn [app] in Htr5.
  destruct Hfail as [[Hov1 ->] | (Hov1 & raw2 & Hacq2 & Hov2)].
  - exists a1, a2, a3, d1. eexists. split.
    + exact (calibrate_fail_first s s4 s5 g prev raw1 Hg Hstart Hacq1 Hov1).
    + cbn [trace bus mode gain set_scaleFactors].
      split; [reflexivity|]. split; [reflexivity|].
      rewrite Htr5.
      split; [ rewrite last_app_cons; reflexivity | ].
      rewrite !last_write_app. unfold last_write. cbn [fold_left is_write_to].
      rewrite !Z.eqb_refl.
      repeat (split; [reflexivity|]).
      split; [congruence|]. rewrite Hgain5. exact Hgain4.
  - destruct (getRawHeading_frame _ _ _ Hacq2) as (Hdev6 & Hmode6 & Hgain6 & _).
    assert (Hsingle5 : mode s5 = HMC5883L_MODE_SINGLE) by congruence.
    destruct (getRawHeading_single_trace _ _ _ Hsingle5 Hacq2) as (a4 & d2 & Htr6).
    rewrite Hdev5, Hdev4 in Htr6. rewrite Htr5, <- app_assoc in Htr6.
    cbn [app] in Htr6.
    exists a1, a2, a4, d2. eexists. split.
    + exact (calibrate_fail_second s s4 s5 s_fail g prev raw1 raw2
               Hg Hstart Hacq1 Hov1 Hacq2 Hov2).
    + cbn [trace bus mode gain set_scaleFactors].
      split; [reflexivity|]. split; [reflexivity|].
      rewrite Htr6.
      split; [ rewrite last_app_cons; reflexivity | ].
      rewrite !last_write_app. unfold last_write. cbn [fold_left is_write_to].
      rewrite !Z.eqb_refl.
      repeat (split; [reflexivity|]).
      split; [congruence|]. rewrite Hgain6, Hgain5. exact Hgain4.
Qed.

(** C10: for a target gain [g] in 0..7, [calibrate g] returns, and on
    every way through it, success or failure, the scale factors of every
    gain other than [g] are the ones it started with. *)
Theorem calibrate_other_gains_untouched (s : st) (g : Z) :
  0 <= g <= 7 ->
  exists (r : bool) (s' : st),
    calibrate g s = Some (r, s') /\
    forall g' a : Z, g' <> g -> scaleFactors s' g' a = scaleFactors s g' a.
Proof.
  intros Hg.
  destruct (self_test_start_total g s) as (prev & s4 & Hstart).
  destruct (self_test_start_spec g prev s s4 Hg Hstart) as (_ & _ & Hsf4 & _).
  destruct (getRawHeading_total s4) as (raw1 & s5 & Hacq1).
  destruct (getRawHeading_frame _ _ _ Hacq1) as (_ & _ & _ & Hsf5).
  destruct (overflowed raw1) eqn:Hov1.
  - eexists _, _. split.
    + exact (calibrate_fail_first s s4 s5 g prev raw1 Hg Hstart Hacq1 Hov1).
    + intros g' a Hne. cbn [scaleFactors set_scaleFactors].
      destruct (row_written (scaleFactors s5) g Float32.one Float32.one Float32.one)
        as (_ & _ & _ & Hframe).
      rewrite (Hframe g' a Hne), Hsf5, Hsf4. reflexivity.
  - destruct (getRawHeading_total s5) as (raw2 & s6 & Hacq2).
    destruct (getRawHeading_frame _ _ _ Hacq2) as (_ & _ & _ & Hsf6).
    destruct (overflowed raw2) eqn:Hov2.
    + eexists _, _. split.
      * exact (calibrate_fail_second s s4 s5 s6 g prev raw1 raw2
                 Hg Hstart Hacq1 Hov1 Hacq2 Hov2).
      * intros g' a Hne. cbn [scaleFactors set_scaleFactors].
        destruct (row_written (scaleFactors s6) g Float32.one Float32.one Float32.one)
          as (_ & _ & _ & Hframe).
        rewrite (Hframe g' a Hne), Hsf6, Hsf5, Hsf4. reflexivity.
    + destruct (calibrate_pass s s4 s5 s6 g prev raw1 raw2
                  Hg Hstart Hacq1 Hov1 Hacq2 Hov2)
        as (a1 & a2 & s' & Hrun & Hsf & _).
      exists true, s'. split; [exact Hrun|].
      intros g' a Hne. rewrite Hsf.
      match goal with
      | |- upd_scaleFactor (upd_scaleFactor (upd_scaleFactor ?f _ _ ?v0) _ _ ?v1)
             _ _ ?v2 _ _ = _ =>
          destruct (row_written f g v0 v1 v2) as (_ & _ & _ & Hframe)
      end.
      rewrite (Hframe g' a Hne), Hsf6, Hsf5, Hsf4. reflexivity.
Qed.

(** ** The scaled heading and the initialisation *)

(** The scaled heading from the raw one, axis by axis. *)
Lemma getHeading_run (s s1 : st) (raw : sample) (x y z : Z) :
  getRawHeading s = Some (raw, s1) ->
  0 <= gain s <= 7 ->
  Float32.to_int16
    (Float32.mul (scaleFactors s (gain s) 0) (Float32.of_int (sample_x raw))) =
  Some x ->
  Float32.to_int16
    (Float32.mul (scaleFactors s (gain s) 1) (Float32.of_int (sample_y raw))) =
  Some y ->
  Float32.to_int16
    (Float32.mul (scaleFactors s (gain s) 2) (Float32.of_int (sample_z raw))) =
  Some z ->
  getHeading s = Some ((x, y, z), s1).
Proof.
  intros Hacq Hgain Hx Hy Hz.
  destruct (getRawHeading_frame _ _ _ Hacq) as (_ & _ & Hg1 & Hsf1).
  unfold getHeading. unfold bind at 1. rewrite Hacq.
  destruct raw as [[rawx rawy] rawz].
  cbn [sample_x sample_y sample_z fst snd] in Hx, Hy, Hz.
  unfold bind at 1. unfold gets. cbv beta iota.
  unfold bind, get_scaleFactor.
  rewrite Hg1, Hsf1, !index_ok_gain by lia. cbv beta iota.
  rewrite Hx. cbn [lift_option]. unfold ret at 1. cbv beta iota.
  rewrite Hsf1, Hy. cbn [lift_option]. unfold ret at 1. cbv beta iota.
  rewrite Hsf1, Hz. reflexivity.
Qed.

(** C7: [getHeading] returns, per axis, the raw sample of [getRawHeading]
    times the scale factor of the cached gain at that axis, the product
    converted to a signed 16-bit integer by truncation toward zero
    ([trunc_toward_zero]); the cached gain is a gain 0..7 and each
    truncated product is one that 16 bits hold. *)
Theorem getHeading_scales_raw_sample (s s1 : st) (raw : sample) (x y z : Z) :
  getRawHeading s = Some (raw, s1) ->
  0 <= gain s <= 7 ->
  Float32.to_int16
    (Float32.mul (scaleFactors s (gain s) 0) (Float32.of_int (sample_x raw))) =
  Some x ->
  Float32.to_int16
    (Float32.mul (scaleFactors s (gain s) 1) (Float32.of_int (sample_y raw))) =
  Some y ->
  Float32.to_int16
    (Float32.mul (scaleFactors s (gain s) 2) (Float32.of_int (sample_z raw))) =
  Some z ->
  getHeading s = Some ((x, y, z), s1).
Proof. exact (getHeading_run s s1 raw x y z). Qed.

Lemma to_int16_range (v : Z) : -32768 <= to_int16 v <= 32767.
Proof.
  unfold to_int16. pose proof (Z.mod_pos_bound (v + 32768) 65536). lia.
Qed.

(** With the scale factors of the cached gain at 1.0, as [initialize]
    leaves them, the scaled heading is the raw heading, whatever the
    sample. *)
Corollary getHeading_unit_scale (s s1 : st) (raw : sample) :
  getRawHeading s = Some (raw, s1) ->
  0 <= gain s <= 7 ->
  (forall a : Z, 0 <= a <= 2 -> scaleFactors s (gain s) a = Float32.one) ->
  getHeading s = Some (raw, s1).
Proof.
  intros Hacq Hgain Hone.
  destruct (getRawHeading_run s) as (ack & d & s' & Heq & _).
  assert (Hraw : raw =
                 (to_int16 (Z.lor (Z.shiftl (buffer s' 0) 8) (buffer s' 1)),
                  to_int16 (Z.lor (Z.shiftl (buffer s' 4) 8) (buffer s' 5)),
                  to_int16 (Z.lor (Z.shiftl (buffer s' 2) 8) (buffer s' 3))))
    by congruence.
  destruct raw as [[x y] z]. injection Hraw as Hx Hy Hz.
  apply (getHeading_run s s1 (x, y, z) x y z Hacq Hgain);
    cbn [sample_x sample_y sample_z fst snd];
    rewrite Hone by lia; apply scaled_by_one; subst; apply to_int16_range.
Qed.

(** The loop of [initialize] from gain [k] on: the rows below [k] are
    already at 1.0, and the loop brings the rest there. *)
Lemma for_gain_resets (fuel : nat) (k : Z) (s : st) :
  0 <= k <= 8 ->
  (Z.to_nat (8 - k) <= fuel)%nat ->
  (forall g a : Z, 0 <= g < k -> 0 <= a <= 2 -> scaleFactors s g a = Float32.one) ->
  exists s' : st,
    for_gain fuel k
      (fun gain =>
         set_scaleFactor gain 0 Float32.one ;;;
         set_scaleFactor gain 1 Float32.one ;;;
         set_scaleFactor gain 2 Float32.one) s = Some (tt, s') /\
    forall g a : Z, 0 <= g <= 7 -> 0 <= a <= 2 -> scaleFactors s' g a = Float32.one.
Proof.
  revert k s. induction fuel as [|fuel IH]; intros k s Hk Hfuel Hinv.
  - assert (k = 8) by lia. subst k. exists s. split; [reflexivity|].
    intros g a Hg Ha. apply Hinv; lia.
  - destruct (Z.eq_dec k 8) as [-> | Hne].
    + exists s. split; [reflexivity|]. intros g a Hg Ha. apply Hinv; lia.
    + cbn [for_gain].
      assert (Hle : (k <=? HMC5883L_GAIN_220) = true)
        by (apply Z.leb_le; unfold HMC5883L_GAIN_220; lia).
      rewrite Hle. unfold bind at 1 2 3, set_scaleFactor.
      rewrite !index_ok_gain by lia.
      rewrite (to_uint8_small (k + 1)) by lia.
      apply IH; [lia | lia |].
      intros g a Hg Ha. cbn [scaleFactors set_scaleFactors].
      destruct (row_written (scaleFactors s) k Float32.one Float32.one Float32.one)
        as (H0 & H1 & H2 & Hframe).
      destruct (Z.eq_dec g k) as [-> | Hgk].
      * assert (Ha' : a = 0 \/ a = 1 \/ a = 2) by lia.
        destruct Ha' as [-> | [-> | ->]]; assumption.
      * rewrite (Hframe g a Hgk). apply Hinv; lia.
Qed.

(** C8: [initialize] returns, and then every row 0..7 of the scale
    factors is (1.0, 1.0, 1.0). *)
Theorem initialize_resets_scaleFactors (s : st) :
  exists s' : st,
    initialize s = Some (tt, s') /\
    forall g : Z,
      0 <= g <= 7 ->
      scaleFactors s' g 0 = Float32.one /\
      scaleFactors s' g 1 = Float32.one /\
      scaleFactors s' g 2 = Float32.one.
Proof.
  unfold initialize.
  unfold bind at 1. unfold delayMicroseconds. cbv beta iota.
  unfold bind at 1. unfold gets. cbv beta iota.
  unfold bind at 1. unfold I2Cdev_writeByte. cbv beta iota zeta.
  unfold bind at 1. rewrite setGain_run. cbv beta iota zeta.
  unfold bind at 1. rewrite setMode_run. cbv beta iota zeta.
  match goal with
  | |- exists s', for_gain _ _ _ ?S = _ /\ _ =>
      destruct (for_gain_resets 256 HMC5883L_GAIN_1370 S) as (s' & Hrun & Hall)
  end.
  - unfold HMC5883L_GAIN_1370. lia.
  - unfold HMC5883L_GAIN_1370. apply Nat.leb_le. vm_compute. reflexivity.
  - unfold HMC5883L_GAIN_1370. intros g a Hg. lia.
  - exists s'. split; [exact Hrun|].
    intros g Hg. repeat split; apply Hall; lia.
Qed.

End DriverProofs.

(** ** Runs on the simulated bus *)

(** The bytes 1 to 6 of the data registers, in continuous mode. *)
Example getRawHeading_bytes_1_to_6 :
  option_map fst
    (getRawHeading
       (continuous (HMC5883L_new (mkSimBus [] [] [[1; 2; 3; 4; 5; 6]])))) =
  Some (0x0102, 0x0506, 0x0304).
Proof. reflexivity. Qed.

(** What [initialize] puts on the bus. *)
Example initialize_trace :
  option_map (fun r => trace (snd r))
    (initialize (HMC5883L_new (mkSimBus [] [] []))) =
  Some [DelayMicroseconds 200;
        WriteByte 0x1E HMC5883L_RA_CONFIG_A 0x70 true;
        WriteByte 0x1E HMC5883L_RA_CONFIG_B 0x20 true;
        WriteByte 0x1E HMC5883L_RA_MODE 0x00 true].
Proof. reflexivity. Qed.

(** C4: with the cached mode at continuous, [setMode] of the single mode
    writes to the MODE register the byte of the cached mode, 0x00, and
    not the byte 0x01 of the new mode; the cached mode becomes single. *)
Theorem setMode_writes_cached_mode :
  exists s' : state SimBus,
    setMode HMC5883L_MODE_SINGLE (continuous (HMC5883L_new (mkSimBus [] [] []))) =
    Some (tt, s') /\
    trace s' =
    [WriteByte HMC5883L_DEFAULT_ADDRESS HMC5883L_RA_MODE
       HMC5883L_MODE_CONTINUOUS true] /\
    HMC5883L_MODE_CONTINUOUS <> HMC5883L_MODE_SINGLE /\
    mode s' = HMC5883L_MODE_SINGLE.
Proof.
  eexists. split; [reflexivity|]. split; [reflexivity|].
  split; [discriminate | reflexivity].
Qed.

(** [setGain] of the gain 5 on a bus that refuses the write. *)
Lemma setGain_writes_gain_byte_witness :
  let s := HMC5883L_new (mkSimBus [false] [] []) in
  0 <= 5 <= 7 /\
  let w :=
    bus_writeByte (devAddr s) HMC5883L_RA_CONFIG_B (Z.shiftl 5 5) (bus s) in
  let ack := fst w in
  exists s' : state SimBus,
    setGain 5 s = Some (tt, s') /\
    bus s' = snd w /\
    trace s' =
    trace s ++ [WriteByte (devAddr s) HMC5883L_RA_CONFIG_B (Z.shiftl 5 5) ack] /\
    Z.land (Z.shiftl 5 5) 31 = 0 /\
    gain s' = (if ack then 5 else gain s) /\
    devAddr s' = devAddr s /\ mode s' = mode s /\
    buffer s' = buffer s /\ scaleFactors s' = scaleFactors s.
Proof.
  split; [lia|].
  apply (setGain_writes_gain_byte (HMC5883L_new (mkSimBus [false] [] [])) 5). lia.
Defined.

(** The identification bytes of the device, and a read that falls
    short: [testConnection] answers true, then false. *)
Lemma testConnection_true_iff_H43_witness :
  (exists s' : state SimBus,
      testConnection (HMC5883L_new (mkSimBus [] [] [[72; 52; 51]])) =
      Some (true, s')) /\
  (exists s' : state SimBus,
      testConnection (HMC5883L_new (mkSimBus [] [] [[72; 52]])) =
      Some (false, s')).
Proof.
  split.
  - pose proof (testConnection_true_iff_H43
                  (HMC5883L_new (mkSimBus [] [] [[72; 52; 51]]))) as Hspec.
    cbv zeta in Hspec. destruct Hspec as (r & s' & Hrun & _ & _ & _ & Hiff).
    destruct r.
    + exists s'. exact Hrun.
    + exfalso. assert (Hr : false = true) by (apply Hiff; reflexivity).
      discriminate Hr.
  - pose proof (testConnection_true_iff_H43
                  (HMC5883L_new (mkSimBus [] [] [[72; 52]]))) as Hspec.
    cbv zeta in Hspec. destruct Hspec as (r & s' & Hrun & _ & _ & _ & Hiff).
    destruct r.
    + exfalso. assert (Hd : received 3 [72; 52] = [char_H; char_4; char_3])
        by (apply Hiff; reflexivity).
      discriminate Hd.
    + exists s'. exact Hrun.
Defined.

(** The six bytes 1 to 6 on the wire, and a sample with the sentinel. *)
Lemma getRawHeading_decodes_x_z_y_witness :
  (exists s' : state SimBus,
      getRawHeading
        (continuous (HMC5883L_new (mkSimBus [] [] [[1; 2; 3; 4; 5; 6]]))) =
      Some ((0x0102, 0x0506, 0x0304), s')) /\
  (exists s' : state SimBus,
      getRawHeading
        (continuous
           (HMC5883L_new (mkSimBus [] [] [[0xF0; 0x00; 0xFF; 0xFF; 0x7F; 0xFF]]))) =
      Some ((-4096, 32767, -1), s')).
Proof.
  split.
  - pose proof (getRawHeading_decodes_x_z_y
                  (continuous
                     (HMC5883L_new (mkSimBus [] [] [[1; 2; 3; 4; 5; 6]]))))
      as Hspec.
    cbv zeta in Hspec. destruct Hspec as (raw & s' & Hrun & _ & _ & Hdec & _).
    destruct (Hdec 1 2 3 4 5 6 eq_refl) as (Hx & Hz & Hy).
    destruct raw as [[x y] z]. cbn [sample_x sample_y sample_z fst snd] in *.
    subst x y z. exists s'. exact Hrun.
  - pose proof (getRawHeading_decodes_x_z_y
                  (continuous
                     (HMC5883L_new
                        (mkSimBus [] [] [[0xF0; 0x00; 0xFF; 0xFF; 0x7F; 0xFF]]))))
      as Hspec.
    cbv zeta in Hspec. destruct Hspec as (raw & s' & Hrun & _ & _ & Hdec & _).
    destruct (Hdec 0xF0 0x00 0xFF 0xFF 0x7F 0xFF eq_refl) as (Hx & Hz & Hy).
    destruct raw as [[x y] z]. cbn [sample_x sample_y sample_z fst snd] in *.
    subst x y z. exists s'. exact Hrun.
Defined.


(** The claim C2 as it is written fails: the first acquisition returns
    the sample (-5000, -4096, 0), whose Y axis is at -4096, its minimum
    -5000 is not the sentinel, and [calibrate] goes on to return true. *)
Lemma calibrate_sentinel_above_minimum_passes :
  let s := HMC5883L_new
             (mkSimBus [] [Some 3]
                [[0xEC; 0x78; 0; 0; 0xF0; 0]; [0; 100; 0; 90; 0; 80]]) in
  exists s4 s5 : state SimBus,
    0 <= 1 <= 7 /\
    self_test_start 1 s = Some (3, s4) /\
    getRawHeading s4 = Some ((-5000, -4096, 0), s5) /\
    some_axis_is (-4096) (-5000, -4096, 0) /\
    (exists s' : state SimBus, calibrate 1 s = Some (true, s')) /\
    ~ (exists s' : state SimBus, calibrate 1 s = Some (false, s')).
Proof.
  cbv zeta. eexists _, _.
  split; [lia|].
  split; [vm_compute; reflexivity|].
  split; [vm_compute; reflexivity|].
  split; [right; left; reflexivity|].
  assert (Hrun : exists s' : state SimBus,
             calibrate 1
               (HMC5883L_new
                  (mkSimBus [] [Some 3]
                     [[0xEC; 0x78; 0; 0; 0xF0; 0]; [0; 100; 0; 90; 0; 80]])) =
             Some (true, s'))
    by (eexists; vm_compute; reflexivity).
  split; [exact Hrun|].
  destruct Hrun as [s0 Hrun]. intros [s' Hfalse].
  rewrite Hrun in Hfalse. discriminate.
Qed.

(** A self-test at gain 1 whose second sample is (-4096, 80, 90). *)
Lemma calibrate_overflow_fails_and_resets_witness :
  let s := HMC5883L_new
             (mkSimBus [] [Some 3]
                [[0; 10; 0; 20; 0; 30]; [0xF0; 0; 0; 90; 0; 80]]) in
  exists s4 s5 : state SimBus,
    0 <= 1 <= 7 /\
    self_test_start 1 s = Some (3, s4) /\
    getRawHeading s4 = Some ((10, 30, 20), s5) /\
    ((some_axis_is (-4096) (10, 30, 20) /\ no_axis_below (-4096) (10, 30, 20)) \/
     (exists (raw2 : sample) (s6 : state SimBus),
         getRawHeading s5 = Some (raw2, s6) /\
         some_axis_is (-4096) raw2 /\ no_axis_below (-4096) raw2)) /\
    exists s' : state SimBus,
      calibrate 1 s = Some (false, s') /\
      scaleFactors s' 1 0 = Float32.one /\
      scaleFactors s' 1 1 = Float32.one /\
      scaleFactors s' 1 2 = Float32.one.
Proof.
  cbv zeta. eexists _, _.
  split; [lia|].
  split; [vm_compute; reflexivity|].
  split; [vm_compute; reflexivity|].
  match goal with
  | |- ?P /\ _ =>
      assert (Hsecond : P)
        by (right; exists (-4096, 80, 90); eexists;
            split; [vm_compute; reflexivity|];
            split; [left; reflexivity | unfold no_axis_below; cbn; lia])
  end.
  split; [exact Hsecond|].
  eapply (calibrate_overflow_fails_and_resets _ _ _ 1 3 (10, 30, 20));
    [lia | vm_compute; reflexivity | vm_compute; reflexivity | exact Hsecond].
Defined.

(** A self-test at gain 1 whose first sample is (10, 30, -4096). *)
Lemma calibrate_overflow_no_restore_witness :
  let s := HMC5883L_new (mkSimBus [] [Some 3] [[0; 10; 0xF0; 0; 0; 30]]) in
  exists s4 s5 : state SimBus,
    0 <= 1 <= 7 /\
    self_test_start 1 s = Some (3, s4) /\
    getRawHeading s4 = Some ((10, 30, -4096), s5) /\
    overflowed (10, 30, -4096) = true /\
    exists (a1 a2 a3 : bool) (d : list Z) (s' : state SimBus),
      calibrate 1 s = Some (false, s') /\
      trace s' = trace s5 /\ bus s' = bus s5 /\
      last (trace s') (Delay 0) =
      ReadBytes (devAddr s) HMC5883L_RA_DATAX_H 6 d /\
      last_write (devAddr s) HMC5883L_RA_CONFIG_B (trace s') =
      Some (WriteByte (devAddr s) HMC5883L_RA_CONFIG_B (Z.shiftl 1 5) a1) /\
      last_write (devAddr s) HMC5883L_RA_CONFIG_A (trace s') =
      Some (WriteBits (devAddr s) HMC5883L_RA_CONFIG_A
              HMC5883L_CRA_BIAS_BIT HMC5883L_CRA_BIAS_LENGTH
              HMC5883L_BIAS_POSITIVE a2) /\
      last_write (devAddr s) HMC5883L_RA_MODE (trace s') =
      Some (WriteByte (devAddr s) HMC5883L_RA_MODE HMC5883L_MODE_SINGLE a3) /\
      mode s' = HMC5883L_MODE_SINGLE /\
      gain s' = (if a1 then 1 else gain s).
Proof.
  cbv zeta. eexists _, _.
  split; [lia|].
  split; [vm_compute; reflexivity|].
  split; [vm_compute; reflexivity|].
  split; [reflexivity|].
  eapply (calibrate_overflow_no_restore _ _ _ _ 1 3 (10, 30, -4096));
    [lia | vm_compute; reflexivity | vm_compute; reflexivity
     | left; split; reflexivity].
Defined.

(** The rows of the other gains across a self-test at gain 1. *)
Lemma calibrate_other_gains_untouched_witness :
  let s := HMC5883L_new
             (mkSimBus [] [Some 3] [[0; 10; 0; 20; 0; 30]; [0; 100; 0; 90; 0; 80]]) in
  0 <= 1 <= 7 /\
  exists (r : bool) (s' : state SimBus),
    calibrate 1 s = Some (r, s') /\
    forall g' a : Z, g' <> 1 -> scaleFactors s' g' a = scaleFactors s g' a.
Proof.
  split; [lia|].
  apply (calibrate_other_gains_untouched
           (HMC5883L_new
              (mkSimBus [] [Some 3]
                 [[0; 10; 0; 20; 0; 30]; [0; 100; 0; 90; 0; 80]])) 1).
  lia.
Defined.

(** The boundary values and the sentinel scaled by 0.5: 32767 gives
    16383 and -32767 gives -16383, both toward zero. *)
Lemma getHeading_scales_raw_sample_witness :
  let s := half_scale
             (HMC5883L_new (mkSimBus [] [] [[0x7F; 0xFF; 0x80; 0x01; 0xF0; 0x00]])) in
  exists s1 : state SimBus,
    getRawHeading s = Some ((32767, -4096, -32767), s1) /\
    0 <= gain s <= 7 /\
    Float32.to_int16
      (Float32.mul (scaleFactors s (gain s) 0) (Float32.of_int 32767)) =
    Some 16383 /\
    Float32.to_int16
      (Float32.mul (scaleFactors s (gain s) 1) (Float32.of_int (-4096))) =
    Some (-2048) /\
    Float32.to_int16
      (Float32.mul (scaleFactors s (gain s) 2) (Float32.of_int (-32767))) =
    Some (-16383) /\
    getHeading s = Some ((16383, -2048, -16383), s1).
Proof.
  cbv zeta. eexists.
  split; [vm_compute; reflexivity|].
  split; [cbn; lia|].
  split; [vm_compute; reflexivity|].
  split; [vm_compute; reflexivity|].
  split; [vm_compute; reflexivity|].
  apply (getHeading_scales_raw_sample _ _ (32767, -4096, -32767));
    [vm_compute; reflexivity | cbn; lia | vm_compute; reflexivity ..].
Defined.

(** * More of the driver *)

(** ** The buffer *)

(** A block of bytes stored from cell [k] on fills the cells it covers
    and leaves the others as they were. *)
Lemma store_bytes_spec (d : list Z) (k : Z) (f : Z -> Z) (i : Z) :
  store_bytes d k f i =
  if (k <=? i) && (i <? k + Z.of_nat (List.length d))
  then nth (Z.to_nat (i - k)) d 0
  else f i.
Proof.
  revert k f. induction d as [|b d IH]; intros k f.
  - cbn [store_bytes List.length]. 
    destruct (k <=? i) eqn:E1, (i <? k + Z.of_nat 0) eqn:E2; try reflexivity.
    apply Z.leb_le in E1. apply Z.ltb_lt in E2. lia.
  - cbn [store_bytes]. rewrite IH. cbn [List.length]. unfold upd.
    destruct (Z.eq_dec i k) as [-> | Hne].
    + replace (k + 1 <=? k) with false by (symmetry; apply Z.leb_gt; lia).
      rewrite Z.eqb_refl, Z.leb_refl.
      replace (k <? k + Z.of_nat (S (List.length d))) with true
        by (symmetry; apply Z.ltb_lt; lia).
      rewrite Z.sub_diag. reflexivity.
    + replace (i =? k) with false by (symmetry; apply Z.eqb_neq; exact Hne).
      destruct (k <=? i) eqn:E1.
      * apply Z.leb_le in E1.
        replace (k + 1 <=? i) with true by (symmetry; apply Z.leb_le; lia).
        replace (i <? k + 1 + Z.of_nat (List.length d))
          with (i <? k + Z.of_nat (S (List.length d)))
          by (f_equal; lia).
        cbn [andb].
        destruct (i <? k + Z.of_nat (S (List.length d))); [|reflexivity].
        replace (Z.to_nat (i - k)) with (S (Z.to_nat (i - (k + 1)))) by lia.
        reflexivity.
      * apply Z.leb_gt in E1.
        replace (k + 1 <=? i) with false by (symmetry; apply Z.leb_gt; lia).
        reflexivity.
Qed.

Lemma received_bytes (n : Z) (data : list Z) :
  Forall (fun b => 0 <= b < 256) (received n data).
Proof.
  unfold received.
  assert (Hall : Forall (fun b => 0 <= b < 256) (map to_uint8 data)).
  { apply Forall_forall. intros b Hin. apply in_map_iff in Hin.
    destruct Hin as (v & <- & _). apply to_uint8_range. }
  rewrite <- (firstn_skipn (Z.to_nat n) (map to_uint8 data)) in Hall.
  apply Forall_app in Hall. exact (proj1 Hall).
Qed.

(** The pair of bytes that [getRawHeading] joins is read in two's
    complement, whatever the two bytes. *)
Lemma byte_pair_value (hi lo : Z) :
  0 <= hi < 256 -> 0 <= lo < 256 ->
  to_int16 (Z.lor (Z.shiftl hi 8) lo) = twos_complement hi lo.
Proof.
  intros Hhi Hlo.
  assert (Hall : forallb (fun h => forallb (byte_pair_ok h) (zrange 256 0))
                         (zrange 256 0) = true)
    by (vm_compute; reflexivity).
  rewrite forallb_forall in Hall.
  assert (Hin1 : In hi (zrange 256 0)) by (apply zrange_In; lia).
  specialize (Hall hi Hin1). rewrite forallb_forall in Hall.
  assert (Hin2 : In lo (zrange 256 0)) by (apply zrange_In; lia).
  specialize (Hall lo Hin2). unfold byte_pair_ok in Hall.
  apply Z.eqb_eq in Hall. exact Hall.
Qed.

Section DriverExtras.

Context {B : Type} {I2C : I2Cdev B} {T : Timing B} {H : Header}.

Abbreviation st := (state B).

Notation "x <- m ;; k" := (bind m (fun x => k))
  (at level 61, m at next level, right associativity).
Notation "m ;;; k" := (bind m (fun _ => k))
  (at level 61, right associativity).

(** ** The trace is the talk with the bus *)

Lemma answered_app (evs1 evs2 : list event) (b b1 b2 : B) :
  answered evs1 b b1 -> answered evs2 b1 b2 -> answered (evs1 ++ evs2) b b2.
Proof.
  revert b. induction evs1 as [|e evs1 IH]; intros b H1 H2.
  - cbn in H1. subst b1. exact H2.
  - destruct H1 as [He H1]. cbn [app answered]. split; [exact He|].
    exact (IH _ H1 H2).
Qed.

Lemma sound_silent {A : Type} (c : M A) :
  (forall (s s' : st) (r : A),
      c s = Some (r, s') -> trace s' = trace s /\ bus s' = bus s) ->
  sound c.
Proof.
  intros Hc s s' r Hrun. destruct (Hc s s' r Hrun) as [Htr Hbus].
  exists []. rewrite app_nil_r. split; [exact Htr|]. exact Hbus.
Qed.

Lemma sound_call {A : Type} (c : M A) :
  (forall (s s' : st) (r : A),
      c s = Some (r, s') ->
      exists e : event,
        trace s' = trace s ++ [e] /\
        fst (perform e (bus s)) = e /\ bus s' = snd (perform e (bus s))) ->
  sound c.
Proof.
  intros Hc s s' r Hrun. destruct (Hc s s' r Hrun) as (e & Htr & He & Hbus).
  exists [e]. split; [exact Htr|]. split; [exact He|exact Hbus].
Qed.

Lemma sound_bind {A C : Type} (m : M A) (k : A -> M C) :
  sound m -> (forall a : A, sound (k a)) -> sound (bind m k).
Proof.
  intros Hm Hk s s' r Hrun. unfold bind in Hrun.
  destruct (m s) as [[a s1]|] eqn:Em; [|discriminate].
  destruct (Hm s s1 a Em) as (evs1 & Htr1 & Hans1).
  destruct (Hk a s1 s' r Hrun) as (evs2 & Htr2 & Hans2).
  exists (evs1 ++ evs2). split.
  - rewrite Htr2, Htr1, app_assoc. reflexivity.
  - exact (answered_app _ _ _ _ _ Hans1 Hans2).
Qed.

Lemma sound_ret {A : Type} (a : A) : sound (ret a).
Proof.
  apply sound_silent. intros s s' r Hrun. injection Hrun as _ <-. auto.
Qed.

Lemma sound_gets {A : Type} (f : st -> A) : sound (gets f).
Proof.
  apply sound_silent. intros s s' r Hrun. injection Hrun as _ <-. auto.
Qed.

Lemma sound_undefined {A : Type} : sound (@undefined B A).
Proof. intros s s' r Hrun. discriminate Hrun. Qed.

Lemma sound_lift_option {A : Type} (o : option A) : sound (lift_option o).
Proof. destruct o; [apply sound_ret | apply sound_undefined]. Qed.

Lemma sound_set_gain (g : Z) : sound (fun s : st => Some (tt, set_gain g s)).
Proof.
  apply sound_silent. intros s s' r Hrun. injection Hrun as _ <-. auto.
Qed.

Lemma sound_set_mode (m : Z) : sound (fun s : st => Some (tt, set_mode m s)).
Proof.
  apply sound_silent. intros s s' r Hrun. injection Hrun as _ <-. auto.
Qed.

Lemma sound_set_scaleFactor (g a : Z) (v : float) : sound (set_scaleFactor g a v).
Proof.
  apply sound_silent. intros s s' r. unfold set_scaleFactor.
  destruct (index_ok g a); [|discriminate]. intros Hrun.
  injection Hrun as _ <-. auto.
Qed.

Lemma sound_get_scaleFactor (g a : Z) : sound (get_scaleFactor g a).
Proof.
  apply sound_silent. intros s s' r. unfold get_scaleFactor.
  destruct (index_ok g a); [|discriminate]. intros Hrun.
  injection Hrun as _ <-. auto.
Qed.

Lemma sound_get_LSB_PER_GAUS (g : Z) : sound (get_LSB_PER_GAUS g).
Proof.
  unfold get_LSB_PER_GAUS.
  destruct (index_ok g 0); [apply sound_ret | apply sound_undefined].
Qed.

Lemma sound_writeByte (dev reg data : Z) : sound (I2Cdev_writeByte dev reg data).
Proof.
  apply sound_call. intros s s' r Hrun. unfold I2Cdev_writeByte in Hrun.
  cbv zeta in Hrun. injection Hrun as _ <-.
  eexists. split; [reflexivity|]. split; reflexivity.
Qed.

Lemma sound_writeBits (dev reg bitStart length data : Z) :
  sound (I2Cdev_writeBits dev reg bitStart length data).
Proof.
  apply sound_call. intros s s' r Hrun. unfold I2Cdev_writeBits in Hrun.
  cbv zeta in Hrun. injection Hrun as _ <-.
  eexists. split; [reflexivity|]. split; reflexivity.
Qed.

Lemma store_result_bus (res : option Z) (s : st) :
  bus (store_result res s) = bus s /\ trace (store_result res s) = trace s.
Proof. destruct res; split; reflexivity. Qed.

Lemma sound_readByte (dev reg : Z) : sound (I2Cdev_readByte dev reg).
Proof.
  apply sound_call. intros s s' r Hrun. unfold I2Cdev_readByte in Hrun.
  cbv zeta in Hrun. injection Hrun as _ <-.
  exists (ReadByte dev reg (fst (bus_readByte dev reg (bus s)))).
  destruct (store_result_bus (fst (bus_readByte dev reg (bus s))) s) as [_ Htr].
  split; [cbn [trace record]; rewrite Htr; reflexivity|].
  split; reflexivity.
Qed.

Lemma sound_readBit (dev reg bitNum : Z) : sound (I2Cdev_readBit dev reg bitNum).
Proof.
  apply sound_call. intros s s' r Hrun. unfold I2Cdev_readBit in Hrun.
  cbv zeta in Hrun. injection Hrun as _ <-.
  exists (ReadBit dev reg bitNum (fst (bus_readBit dev reg bitNum (bus s)))).
  destruct (store_result_bus (fst (bus_readBit dev reg bitNum (bus s))) s) as [_ Htr].
  split; [cbn [trace record]; rewrite Htr; reflexivity|].
  split; reflexivity.
Qed.

Lemma sound_readBits (dev reg bitStart length : Z) :
  sound (I2Cdev_readBits dev reg bitStart length).
Proof.
  apply sound_call. intros s s' r Hrun. unfold I2Cdev_readBits in Hrun.
  cbv zeta in Hrun. injection Hrun as _ <-.
  exists (ReadBits dev reg bitStart length (fst (bus_readBits dev reg bitStart length (bus s)))).
  destruct (store_result_bus (fst (bus_readBits dev reg bitStart length (bus s))) s) as [_ Htr].
  split; [cbn [trace record]; rewrite Htr; reflexivity|].
  split; reflexivity.
Qed.

Lemma sound_readBytes (dev reg length : Z) : sound (I2Cdev_readBytes dev reg length).
Proof.
  apply sound_call. intros s s' r Hrun. unfold I2Cdev_readBytes in Hrun.
  cbv zeta in Hrun. injection Hrun as _ <-.
  eexists. split; [reflexivity|]. split; reflexivity.
Qed.

Lemma sound_delay (ms : Z) : sound (delay ms).
Proof.
  apply sound_call. intros s s' r Hrun. unfold delay in Hrun.
  injection Hrun as _ <-. eexists. split; [reflexivity|]. split; reflexivity.
Qed.

Lemma sound_delayMicroseconds (us : Z) : sound (delayMicroseconds us).
Proof.
  apply sound_call. intros s s' r Hrun. unfold delayMicroseconds in Hrun.
  injection Hrun as _ <-. eexists. split; [reflexivity|]. split; reflexivity.
Qed.

Ltac sound_step :=
  match goal with
  | |- sound (bind _ _) => apply sound_bind; [ | intros ? ]
  | |- sound (ret _) => apply sound_ret
  | |- sound (gets _) => apply sound_gets
  | |- sound undefined => apply sound_undefined
  | |- sound (lift_option _) => apply sound_lift_option
  | |- sound (I2Cdev_writeByte _ _ _) => apply sound_writeByte
  | |- sound (I2Cdev_writeBits _ _ _ _ _) => apply sound_writeBits
  | |- sound (I2Cdev_readByte _ _) => apply sound_readByte
  | |- sound (I2Cdev_readBit _ _ _) => apply sound_readBit
  | |- sound (I2Cdev_readBits _ _ _ _) => apply sound_readBits
  | |- sound (I2Cdev_readBytes _ _ _) => apply sound_readBytes
  | |- sound (delay _) => apply sound_delay
  | |- sound (delayMicroseconds _) => apply sound_delayMicroseconds
  | |- sound (set_scaleFactor _ _ _) => apply sound_set_scaleFactor
  | |- sound (get_scaleFactor _ _) => apply sound_get_scaleFactor
  | |- sound (get_LSB_PER_GAUS _) => apply sound_get_LSB_PER_GAUS
  | |- sound (fun s => Some (tt, set_gain _ s)) => apply sound_set_gain
  | |- sound (fun s => Some (tt, set_mode _ s)) => apply sound_set_mode
  | |- sound (if ?c then _ else _) => destruct c
  | |- sound (match ?p with (_, _) => _ end) => destruct p
  end.

Lemma sound_setGain (g : Z) : sound (setGain g).
Proof. unfold setGain. repeat sound_step. Qed.

Lemma sound_setMode (m : Z) : sound (setMode m).
Proof. unfold setMode. repeat sound_step. Qed.

Lemma sound_setMeasurementBias (bias : Z) : sound (setMeasurementBias bias).
Proof. unfold setMeasurementBias. repeat sound_step. Qed.

Lemma sound_getGain : sound getGain.
Proof. unfold getGain. repeat sound_step. Qed.

Lemma sound_getRawHeading : sound getRawHeading.
Proof. unfold getRawHeading. repeat sound_step. Qed.

Lemma sound_calibrate (g : Z) : sound (calibrate g).
Proof.
  unfold calibrate.
  repeat first
    [ apply sound_setGain | apply sound_setMode | apply sound_setMeasurementBias
    | apply sound_getGain | apply sound_getRawHeading | sound_step ].
Qed.

(** An acquisition, with the bytes of its block read: they are what
    the bus handed over, bytes, at most six of them. *)
Lemma getRawHeading_run_bytes (s : st) :
  let trig :=
    bus_writeByte (devAddr s) HMC5883L_RA_MODE HMC5883L_MODE_SINGLE (bus s) in
  let b :=
    if mode s =? HMC5883L_MODE_SINGLE
    then wait_ms HMC5883L_MEASUREMENT_PERIOD (snd trig)
    else bus s in
  let rd := bus_readBytes (devAddr s) HMC5883L_RA_DATAX_H 6 b in
  let d := received 6 (fst rd) in
  exists s' : st,
    getRawHeading s =
    Some ((to_int16 (Z.lor (Z.shiftl (buffer s' 0) 8) (buffer s' 1)),
           to_int16 (Z.lor (Z.shiftl (buffer s' 4) 8) (buffer s' 5)),
           to_int16 (Z.lor (Z.shiftl (buffer s' 2) 8) (buffer s' 3))), s') /\
    buffer s' = store_bytes d 0 (buffer s) /\
    bus s' = snd rd /\
    Forall (fun v => 0 <= v < 256) d /\ (List.length d <= 6)%nat /\
    trace s' =
    trace s ++
    (if mode s =? HMC5883L_MODE_SINGLE
     then [WriteByte (devAddr s) HMC5883L_RA_MODE HMC5883L_MODE_SINGLE (fst trig);
           Delay HMC5883L_MEASUREMENT_PERIOD]
     else []) ++
    [ReadBytes (devAddr s) HMC5883L_RA_DATAX_H 6 d].
Proof.
  pose proof (getRawHeading_pinned s) as Hpin. cbv zeta in Hpin |- *.
  destruct Hpin as (s' & Hrun & Hbuf & Hbus & Htr).
  exists s'. split; [exact Hrun|]. split; [exact Hbuf|]. split; [exact Hbus|].
  split; [apply received_bytes|]. split; [apply (received_length 6)|].
  exact Htr.
Qed.

(** X1: [getRawHeading] ignores the result of its block read.  Of the
    bytes the bus hands over, the cells of the buffer they cover hold
    them and the cells beyond keep what they held; the sample is decoded
    from all six cells whatever the number of bytes that arrived, and
    when none arrived it is the sample the buffer held before the call. *)
Theorem getRawHeading_short_read_is_stale (s : st) :
  let trig :=
    bus_writeByte (devAddr s) HMC5883L_RA_MODE HMC5883L_MODE_SINGLE (bus s) in
  let b :=
    if mode s =? HMC5883L_MODE_SINGLE
    then wait_ms HMC5883L_MEASUREMENT_PERIOD (snd trig)
    else bus s in
  let rd := bus_readBytes (devAddr s) HMC5883L_RA_DATAX_H 6 b in
  let d := received 6 (fst rd) in
  exists (raw : sample) (s' : st),
    getRawHeading s = Some (raw, s') /\
    bus s' = snd rd /\
    last (trace s') (Delay 0) =
    ReadBytes (devAddr s) HMC5883L_RA_DATAX_H 6 d /\
    (List.length d <= 6)%nat /\
    raw = (to_int16 (Z.lor (Z.shiftl (buffer s' 0) 8) (buffer s' 1)),
           to_int16 (Z.lor (Z.shiftl (buffer s' 4) 8) (buffer s' 5)),
           to_int16 (Z.lor (Z.shiftl (buffer s' 2) 8) (buffer s' 3))) /\
    (forall i : Z, 0 <= i < Z.of_nat (List.length d) ->
                   buffer s' i = nth (Z.to_nat i) d 0) /\
    (forall i : Z, Z.of_nat (List.length d) <= i -> buffer s' i = buffer s i) /\
    (d = [] ->
     raw = (to_int16 (Z.lor (Z.shiftl (buffer s 0) 8) (buffer s 1)),
            to_int16 (Z.lor (Z.shiftl (buffer s 4) 8) (buffer s 5)),
            to_int16 (Z.lor (Z.shiftl (buffer s 2) 8) (buffer s 3)))).
Proof.
  pose proof (getRawHeading_run_bytes s) as Hpin. cbv zeta in Hpin |- *.
  destruct Hpin as (s' & Hrun & Hbuf & Hbus & _ & Hlen & Htr).
  set (d := received 6 _) in *. clearbody d.
  eexists _, s'. split; [exact Hrun|]. split; [exact Hbus|].
  split.
  { rewrite Htr, app_assoc. apply last_last. }
  split; [exact Hlen|].
  split; [reflexivity|].
  split.
  { intros i Hi. rewrite Hbuf, store_bytes_spec.
    replace (0 <=? i) with true by (symmetry; apply Z.leb_le; lia).
    replace (i <? 0 + Z.of_nat (List.length d)) with true
      by (symmetry; apply Z.ltb_lt; lia).
    rewrite Z.sub_0_r. reflexivity. }
  split.
  { intros i Hi. rewrite Hbuf, store_bytes_spec.
    replace (i <? 0 + Z.of_nat (List.length d)) with false
      by (symmetry; apply Z.ltb_ge; lia).
    rewrite andb_false_r. reflexivity. }
  intros ->. rewrite Hbuf. reflexivity.
Qed.

(** X2: when the bus hands over six bytes, each axis is the two's
    complement value of its pair of bytes, high byte first:
    [256 * hi + lo] below 0x8000 and [256 * hi + lo - 65536] from there
    on, so within -32768..32767. *)
Theorem getRawHeading_twos_complement (s : st) :
  let trig :=
    bus_writeByte (devAddr s) HMC5883L_RA_MODE HMC5883L_MODE_SINGLE (bus s) in
  let b :=
    if mode s =? HMC5883L_MODE_SINGLE
    then wait_ms HMC5883L_MEASUREMENT_PERIOD (snd trig)
    else bus s in
  let rd := bus_readBytes (devAddr s) HMC5883L_RA_DATAX_H 6 b in
  let d := received 6 (fst rd) in
  exists (raw : sample) (s' : st),
    getRawHeading s = Some (raw, s') /\
    bus s' = snd rd /\
    last (trace s') (Delay 0) =
    ReadBytes (devAddr s) HMC5883L_RA_DATAX_H 6 d /\
    forall b0 b1 b2 b3 b4 b5 : Z,
      d = [b0; b1; b2; b3; b4; b5] ->
      sample_x raw = twos_complement b0 b1 /\
      sample_z raw = twos_complement b2 b3 /\
      sample_y raw = twos_complement b4 b5 /\
      -32768 <= sample_x raw <= 32767 /\
      -32768 <= sample_y raw <= 32767 /\
      -32768 <= sample_z raw <= 32767.
Proof.
  pose proof (getRawHeading_run_bytes s) as Hpin. cbv zeta in Hpin |- *.
  destruct Hpin as (s' & Hrun & Hbuf & Hbus & Hbytes & _ & Htr).
  set (d := received 6 _) in *. clearbody d.
  eexists _, s'. split; [exact Hrun|]. split; [exact Hbus|].
  split.
  { rewrite Htr, app_assoc. apply last_last. }
  intros b0 b1 b2 b3 b4 b5 ->.
  cbn [sample_x sample_y sample_z fst snd].
  rewrite Hbuf.
  change (store_bytes [b0; b1; b2; b3; b4; b5] 0 (buffer s) 0) with b0.
  change (store_bytes [b0; b1; b2; b3; b4; b5] 0 (buffer s) 1) with b1.
  change (store_bytes [b0; b1; b2; b3; b4; b5] 0 (buffer s) 2) with b2.
  change (store_bytes [b0; b1; b2; b3; b4; b5] 0 (buffer s) 3) with b3.
  change (store_bytes [b0; b1; b2; b3; b4; b5] 0 (buffer s) 4) with b4.
  change (store_bytes [b0; b1; b2; b3; b4; b5] 0 (buffer s) 5) with b5.
  repeat match goal with
         | Hf : Forall _ (_ :: _) |- _ => inversion Hf; subst; clear Hf
         end.
  rewrite <- !byte_pair_value by assumption.
  repeat split; try reflexivity; apply to_int16_range.
Qed.

(** ** The accessors *)

(** A read of a bit field through the shared buffer: the field when the
    bus answers, the previous content of [buffer[0]] when it does not. *)
Lemma field_read_run (reg bitStart length : Z) (s : st) :
  option_map fst
    ((dev <- gets devAddr ;;
      I2Cdev_readBits dev reg bitStart length ;;;
      buf <- gets buffer ;; ret (buf 0)) s) =
  Some (match fst (bus_readBits (devAddr s) reg bitStart length (bus s)) with
        | Some v => to_uint8 v
        | None => buffer s 0
        end).
Proof.
  unfold bind, gets, I2Cdev_readBits, ret. cbv beta iota zeta.
  destruct (fst (bus_readBits _ _ _ _ _)); reflexivity.
Qed.

(** X3: the accessors of the bit fields do not see a failed read.  Each
    of them returns the field as a byte when the bus answers, and the
    byte that [buffer[0]] held before the call when the read fails. *)
Theorem field_getters_return_stale_byte_on_failure (s : st) :
  option_map fst (getSampleAveraging s) =
  Some (match fst (bus_readBits (devAddr s) HMC5883L_RA_CONFIG_A
                     HMC5883L_CRA_AVERAGE_BIT HMC5883L_CRA_AVERAGE_LENGTH (bus s)) with
        | Some v => to_uint8 v
        | None => buffer s 0
        end) /\
  option_map fst (getDataRate s) =
  Some (match fst (bus_readBits (devAddr s) HMC5883L_RA_CONFIG_A
                     HMC5883L_CRA_RATE_BIT HMC5883L_CRA_RATE_LENGTH (bus s)) with
        | Some v => to_uint8 v
        | None => buffer s 0
        end) /\
  option_map fst (getMeasurementBias s) =
  Some (match fst (bus_readBits (devAddr s) HMC5883L_RA_CONFIG_A
                     HMC5883L_CRA_BIAS_BIT HMC5883L_CRA_BIAS_LENGTH (bus s)) with
        | Some v => to_uint8 v
        | None => buffer s 0
        end) /\
  option_map fst (getGain s) =
  Some (match fst (bus_readBits (devAddr s) HMC5883L_RA_CONFIG_B
                     HMC5883L_CRB_GAIN_BIT HMC5883L_CRB_GAIN_LENGTH (bus s)) with
        | Some v => to_uint8 v
        | None => buffer s 0
        end) /\
  option_map fst (getMode s) =
  Some (match fst (bus_readBits (devAddr s) HMC5883L_RA_MODE
                     HMC5883L_MODEREG_BIT HMC5883L_MODEREG_LENGTH (bus s)) with
        | Some v => to_uint8 v
        | None => buffer s 0
        end).
Proof.
  repeat split; apply field_read_run.
Qed.

Lemma testConnection_true_buffer (s s1 : st) :
  testConnection s = Some (true, s1) ->
  buffer s1 0 = char_H /\ buffer s1 1 = char_4 /\ buffer s1 2 = char_3.
Proof.
  unfold testConnection, bind, gets, I2Cdev_readBytes. cbv beta iota zeta.
  match goal with
  | |- context [if ?c then _ else _] => destruct c
  end; unfold ret; intros Hrun; [|discriminate].
  injection Hrun as Hr <-.
  rewrite !andb_true_iff, !Z.eqb_eq in Hr. tauto.
Qed.

(** X4: the identification bytes stay in the shared buffer.  After a
    [testConnection] that returned true, a [getGain] whose read fails
    returns 72, the code of 'H', which is no gain. *)
Theorem getGain_after_testConnection_is_H (s s1 : st) :
  testConnection s = Some (true, s1) ->
  fst (bus_readBits (devAddr s1) HMC5883L_RA_CONFIG_B
         HMC5883L_CRB_GAIN_BIT HMC5883L_CRB_GAIN_LENGTH (bus s1)) = None ->
  option_map fst (getGain s1) = Some char_H.
Proof.
  intros Htest Hfail.
  destruct (testConnection_true_buffer s s1 Htest) as (Hb0 & _).
  unfold getGain. rewrite field_read_run, Hfail, Hb0. reflexivity.
Qed.

(** X5: the MODE register lags one call behind.  Of two calls of
    [setMode] in a row, the first writes the mode that was cached before
    it and the second writes the mode of the first call; the mode of the
    second call reaches the cache only. *)
Theorem setMode_twice_writes_previous_modes (s : st) (m1 m2 : Z) :
  0 <= m1 <= 255 ->
  exists (a1 a2 : bool) (s' : st),
    (setMode m1 ;;; setMode m2) s = Some (tt, s') /\
    trace s' =
    trace s ++
    [WriteByte (devAddr s) HMC5883L_RA_MODE (to_uint8 (mode s)) a1;
     WriteByte (devAddr s) HMC5883L_RA_MODE m1 a2] /\
    mode s' = m2.
Proof.
  intros Hm1. unfold bind at 1. rewrite setMode_run. cbv beta iota zeta.
  rewrite setMode_run. cbv beta iota zeta.
  eexists _, _, _. split; [reflexivity|].
  cbn [trace mode devAddr record set_mode].
  rewrite !Z.shiftl_0_r, (to_uint8_small m1) by lia.
  rewrite <- app_assoc. split; reflexivity.
Qed.



(** The scaled heading with a cached gain that is no row of the table. *)
Lemma getHeading_bad_gain (s : st) :
  gain s < 0 \/ 7 < gain s -> getHeading s = None.
Proof.
  intros Hbad.
  destruct (getRawHeading_total s) as (raw & s1 & Hacq).
  destruct (getRawHeading_frame _ _ _ Hacq) as (_ & _ & Hg1 & _).
  unfold getHeading. unfold bind at 1. rewrite Hacq.
  destruct raw as [[rawx rawy] rawz].
  unfold bind at 1. unfold gets. cbv beta iota.
  unfold bind at 1. unfold get_scaleFactor.
  assert (Hidx : index_ok (gain s1) 0 = false).
  { unfold index_ok. rewrite Hg1.
    destruct Hbad as [Hlo | Hhi].
    - replace (0 <=? gain s) with false by (symmetry; apply Z.leb_gt; lia).
      reflexivity.
    - replace (gain s <=? 7) with false by (symmetry; apply Z.leb_gt; lia).
      rewrite andb_false_r. reflexivity. }
  rewrite Hidx. reflexivity.
Qed.

(** X7: a gain above 7 that [setGain] cached leaves [getHeading]
    without a defined result: it reads [scaleFactors] at a row the table
    does not have. *)
Theorem getHeading_undefined_after_setGain_above_7 (s s1 : st) (g : Z) :
  7 < g ->
  fst (bus_writeByte (devAddr s) HMC5883L_RA_CONFIG_B
         (to_uint8 (Z.shiftl g 5)) (bus s)) = true ->
  setGain g s = Some (tt, s1) ->
  getHeading s1 = None.
Proof.
  intros Hg Hack Hrun. rewrite setGain_run in Hrun. cbv zeta in Hrun.
  rewrite Hack in Hrun. injection Hrun as <-.
  apply getHeading_bad_gain. cbn [gain set_gain]. lia.
Qed.

(** ** The initialisation *)

(** The loop of [initialize] writes scale factors and nothing else. *)
Lemma for_gain_frame (fuel : nat) (k : Z) (s s' : st) :
  for_gain fuel k
    (fun gain =>
       set_scaleFactor gain 0 Float32.one ;;;
       set_scaleFactor gain 1 Float32.one ;;;
       set_scaleFactor gain 2 Float32.one) s = Some (tt, s') ->
  devAddr s' = devAddr s /\ mode s' = mode s /\ gain s' = gain s /\
  buffer s' = buffer s /\ bus s' = bus s /\ trace s' = trace s.
Proof.
  revert k s. induction fuel as [|fuel IH]; intros k s; cbn [for_gain];
    destruct (k <=? HMC5883L_GAIN_220).
  - discriminate.
  - intros Hrun. injection Hrun as <-. repeat split; reflexivity.
  - unfold bind at 1 2 3, set_scaleFactor.
    destruct (index_ok k 0); [|discriminate].
    destruct (index_ok k 1); [|discriminate].
    destruct (index_ok k 2); [|discriminate].
    intros Hrun. apply IH in Hrun. exact Hrun.
  - intros Hrun. injection Hrun as <-. repeat split; reflexivity.
Qed.

(** All of [initialize]: what it puts on the bus, and the driver it
    leaves. *)
Lemma initialize_run (s : st) :
  exists (a1 a2 a3 : bool) (s' : st),
    initialize s = Some (tt, s') /\
    trace s' =
    trace s ++
    [DelayMicroseconds HMC5883L_READY_FOR_I2C_COMMAND;
     WriteByte (devAddr s) HMC5883L_RA_CONFIG_A 0x70 a1;
     WriteByte (devAddr s) HMC5883L_RA_CONFIG_B 0x20 a2;
     WriteByte (devAddr s) HMC5883L_RA_MODE (to_uint8 (mode s)) a3] /\
    devAddr s' = devAddr s /\
    mode s' = HMC5883L_MODE_SINGLE /\
    gain s' = (if a2 then HMC5883L_GAIN_1090 else gain s) /\
    forall g a : Z, 0 <= g <= 7 -> 0 <= a <= 2 -> scaleFactors s' g a = Float32.one.
Proof.
  unfold initialize.
  unfold bind at 1. unfold delayMicroseconds. cbv beta iota.
  unfold bind at 1. unfold gets. cbv beta iota.
  unfold bind at 1. unfold I2Cdev_writeByte. cbv beta iota zeta.
  unfold bind at 1. rewrite setGain_run. cbv beta iota zeta.
  unfold bind at 1. rewrite setMode_run. cbv beta iota zeta.
  match goal with
  | |- exists a1 a2 a3 s', for_gain _ _ _ ?S = _ /\ _ =>
      destruct (for_gain_resets 256 HMC5883L_GAIN_1370 S) as (s' & Hrun & Hall);
      [ unfold HMC5883L_GAIN_1370; lia
      | unfold HMC5883L_GAIN_1370; apply Nat.leb_le; vm_compute; reflexivity
      | unfold HMC5883L_GAIN_1370; intros g a Hg; lia
      | destruct (for_gain_frame _ _ _ _ Hrun)
          as (Hdev & Hmode & Hgain & _ & _ & Htr) ]
  end.
  rewrite Z.shiftl_0_r in *.
  match type of Hgain with
  | context [if fst ?w then _ else _] => destruct (fst w) eqn:Eack
  end;
    eexists _, _, _, s'; (split; [exact Hrun|]);
    rewrite Htr, Hdev, Hmode, Hgain;
    cbn [trace devAddr mode gain record set_mode set_gain];
    rewrite <- !app_assoc; cbn [app];
    (split; [reflexivity|]); (split; [reflexivity|]); (split; [reflexivity|]);
    (split; [reflexivity|]); exact Hall.
Qed.


(** X9: after [initialize], with a cached gain 0..7 (the gain 1 when
    CONFIG_B was acknowledged), [getHeading] is [getRawHeading]: every
    sample comes back unscaled, on every bus. *)
Theorem getHeading_after_initialize_is_raw (s s1 : st) :
  initialize s = Some (tt, s1) ->
  0 <= gain s1 <= 7 ->
  getHeading s1 = getRawHeading s1.
Proof.
  intros Hinit Hgain.
  destruct (initialize_run s)
    as (a1 & a2 & a3 & s' & Hrun & _ & _ & _ & _ & Hall).
  assert (s' = s1) by congruence. subst s'.
  destruct (getRawHeading_total s1) as (raw & s2 & Hacq).
  rewrite Hacq. apply (getHeading_unit_scale s1 s2 raw Hacq Hgain).
  intros a Ha. apply Hall; lia.
Qed.

(** ** The self-test, all of it *)

Lemma getGain_frame (s s1 : st) (prev : Z) :
  getGain s = Some (prev, s1) ->
  devAddr s1 = devAddr s /\ mode s1 = mode s /\ gain s1 = gain s /\
  scaleFactors s1 = scaleFactors s.
Proof.
  rewrite getGain_run. cbv zeta. intros Hrun. injection Hrun as _ <-.
  destruct (fst (bus_readBits _ _ _ _ _)); repeat split; reflexivity.
Qed.

(** The way through [calibrate] that passes leaves the cached mode and
    the address as the second acquisition left them. *)
Lemma calibrate_pass_frame (s s4 s5 s6 s' : st) (g prev : Z) (raw1 raw2 : sample) :
  0 <= g <= 7 ->
  self_test_start g s = Some (prev, s4) ->
  getRawHeading s4 = Some (raw1, s5) ->
  overflowed raw1 = false ->
  getRawHeading s5 = Some (raw2, s6) ->
  overflowed raw2 = false ->
  calibrate g s = Some (true, s') ->
  mode s' = mode s6 /\ devAddr s' = devAddr s6.
Proof.
  intros Hg Hstart Hacq1 Hov1 Hacq2 Hov2.
  rewrite (calibrate_after_start g prev s s4 Hg Hstart).
  unfold bind at 1. rewrite Hacq1, Hov1.
  unfold bind at 1. rewrite Hacq2, Hov2.
  destruct raw2 as [[x y] z].
  unfold get_LSB_PER_GAUS. rewrite (index_ok_gain g 0) by lia.
  unfold bind at 1 2 3. unfold ret at 1 2 3.
  rewrite set_row_run by exact Hg.
  unfold bind at 1. rewrite setGain_run. cbv beta iota zeta.
  unfold bind at 1. rewrite setMeasurementBias_run. cbv beta iota zeta.
  unfold ret. intros Hrun. injection Hrun as <-.
  match goal with
  | |- context [if fst ?w then _ else _] => destruct (fst w)
  end; split; reflexivity.
Qed.

(** The gain that steps 1 to 3 keep is the one [getGain] returns at
    entry. *)
Lemma self_test_start_prev (g prev : Z) (s s4 : st) :
  self_test_start g s = Some (prev, s4) ->
  option_map fst (getGain s) = Some prev.
Proof.
  unfold self_test_start. unfold bind at 1.
  destruct (getGain s) as [[p s1]|]; [|discriminate].
  unfold bind at 1. destruct (setGain (to_uint8 g) s1) as [[[] s2]|];
    [|discriminate].
  unfold bind at 1.
  destruct (setMeasurementBias HMC5883L_BIAS_POSITIVE s2) as [[[] s3]|];
    [|discriminate].
  unfold bind at 1.
  destruct (setMode HMC5883L_MODE_SINGLE s3) as [[[] s4']|]; [|discriminate].
  unfold ret. intros Hrun. injection Hrun as -> _. reflexivity.
Qed.

(** [calibrate] for a gain 0..7 goes one of three ways; each with the
    calls it makes on the bus, in order.  The cached mode ends single
    and the address is the one it started with. *)
Lemma calibrate_run (s : st) (g : Z) :
  0 <= g <= 7 ->
  exists (res : option Z) (a1 a2 a3 a4 a5 a6 a7 : bool) (d1 d2 : list Z)
         (prev : Z) (r : bool) (s' : st),
    calibrate g s = Some (r, s') /\
    mode s' = HMC5883L_MODE_SINGLE /\ devAddr s' = devAddr s /\
    option_map fst (getGain s) = Some prev /\
    ((r = false /\
      scaleFactors s' g 0 = Float32.one /\ scaleFactors s' g 1 = Float32.one /\
      scaleFactors s' g 2 = Float32.one /\
      gain s' = (if a1 then g else gain s) /\
      (trace s' = trace s ++ [ReadBits (devAddr s) HMC5883L_RA_CONFIG_B
       HMC5883L_CRB_GAIN_BIT HMC5883L_CRB_GAIN_LENGTH res;
     WriteByte (devAddr s) HMC5883L_RA_CONFIG_B (Z.shiftl g 5) a1;
     WriteBits (devAddr s) HMC5883L_RA_CONFIG_A
       HMC5883L_CRA_BIAS_BIT HMC5883L_CRA_BIAS_LENGTH HMC5883L_BIAS_POSITIVE a2;
     WriteByte (devAddr s) HMC5883L_RA_MODE (to_uint8 (mode s)) a3;
     WriteByte (devAddr s) HMC5883L_RA_MODE HMC5883L_MODE_SINGLE a4;
     Delay HMC5883L_MEASUREMENT_PERIOD;
     ReadBytes (devAddr s) HMC5883L_RA_DATAX_H 6 d1] \/
       trace s' = trace s ++ [ReadBits (devAddr s) HMC5883L_RA_CONFIG_B
       HMC5883L_CRB_GAIN_BIT HMC5883L_CRB_GAIN_LENGTH res;
     WriteByte (devAddr s) HMC5883L_RA_CONFIG_B (Z.shiftl g 5) a1;
     WriteBits (devAddr s) HMC5883L_RA_CONFIG_A
       HMC5883L_CRA_BIAS_BIT HMC5883L_CRA_BIAS_LENGTH HMC5883L_BIAS_POSITIVE a2;
     WriteByte (devAddr s) HMC5883L_RA_MODE (to_uint8 (mode s)) a3;
     WriteByte (devAddr s) HMC5883L_RA_MODE HMC5883L_MODE_SINGLE a4;
     Delay HMC5883L_MEASUREMENT_PERIOD;
     ReadBytes (devAddr s) HMC5883L_RA_DATAX_H 6 d1;
     WriteByte (devAddr s) HMC5883L_RA_MODE HMC5883L_MODE_SINGLE a5;
     Delay HMC5883L_MEASUREMENT_PERIOD;
     ReadBytes (devAddr s) HMC5883L_RA_DATAX_H 6 d2])) \/
     (r = true /\
      trace s' = trace s ++ [ReadBits (devAddr s) HMC5883L_RA_CONFIG_B
       HMC5883L_CRB_GAIN_BIT HMC5883L_CRB_GAIN_LENGTH res;
     WriteByte (devAddr s) HMC5883L_RA_CONFIG_B (Z.shiftl g 5) a1;
     WriteBits (devAddr s) HMC5883L_RA_CONFIG_A
       HMC5883L_CRA_BIAS_BIT HMC5883L_CRA_BIAS_LENGTH HMC5883L_BIAS_POSITIVE a2;
     WriteByte (devAddr s) HMC5883L_RA_MODE (to_uint8 (mode s)) a3;
     WriteByte (devAddr s) HMC5883L_RA_MODE HMC5883L_MODE_SINGLE a4;
     Delay HMC5883L_MEASUREMENT_PERIOD;
     ReadBytes (devAddr s) HMC5883L_RA_DATAX_H 6 d1;
     WriteByte (devAddr s) HMC5883L_RA_MODE HMC5883L_MODE_SINGLE a5;
     Delay HMC5883L_MEASUREMENT_PERIOD;
     ReadBytes (devAddr s) HMC5883L_RA_DATAX_H 6 d2;
     WriteByte (devAddr s) HMC5883L_RA_CONFIG_B (to_uint8 (Z.shiftl prev 5)) a6;
     WriteBits (devAddr s) HMC5883L_RA_CONFIG_A
       HMC5883L_CRA_BIAS_BIT HMC5883L_CRA_BIAS_LENGTH HMC5883L_BIAS_NORMAL a7])).
Proof.
  intros Hg.
  destruct (self_test_start_total g s) as (prev & s4 & Hstart).
  pose proof (self_test_start_prev g prev s s4 Hstart) as Hprev.
  destruct (self_test_start_spec g prev s s4 Hg Hstart)
    as (Hdev4 & Hmode4 & _ & res & a1 & a2 & a3 & Htr4 & Hgain4).
  rewrite Z.shiftl_0_r in Htr4.
  destruct (getRawHeading_total s4) as (raw1 & s5 & Hacq1).
  destruct (getRawHeading_frame _ _ _ Hacq1) as (Hdev5 & Hmode5 & Hgain5 & _).
  destruct (getRawHeading_single_trace _ _ _ Hmode4 Hacq1) as (a4 & d1 & Htr5).
  rewrite Hdev4 in Htr5. rewrite Htr4, <- app_assoc in Htr5. cbn [app] in Htr5.
  destruct (overflowed raw1) eqn:Hov1.
  - exists res, a1, a2, a3, a4, true, true, true, d1, [], prev, false.
    eexists. split.
    + exact (calibrate_fail_first s s4 s5 g prev raw1 Hg Hstart Hacq1 Hov1).
    + cbn [mode devAddr trace gain scaleFactors set_scaleFactors].
      split; [congruence|]. split; [congruence|].
      split; [exact Hprev|]. left.
      split; [reflexivity|].
      destruct (row_written (scaleFactors s5) g Float32.one Float32.one Float32.one)
        as (H0 & H1 & H2 & _).
      repeat (split; [assumption|]).
      split; [rewrite Hgain5; exact Hgain4|]. left. exact Htr5.
  - destruct (getRawHeading_total s5) as (raw2 & s6 & Hacq2).
    destruct (getRawHeading_frame _ _ _ Hacq2) as (Hdev6 & Hmode6 & Hgain6 & _).
    assert (Hsingle5 : mode s5 = HMC5883L_MODE_SINGLE) by congruence.
    destruct (getRawHeading_single_trace _ _ _ Hsingle5 Hacq2) as (a5 & d2 & Htr6).
    rewrite Hdev5, Hdev4 in Htr6. rewrite Htr5, <- app_assoc in Htr6.
    cbn [app] in Htr6.
    destruct (overflowed raw2) eqn:Hov2.
    + exists res, a1, a2, a3, a4, a5, true, true, d1, d2, prev, false.
      eexists. split.
      * exact (calibrate_fail_second s s4 s5 s6 g prev raw1 raw2
                 Hg Hstart Hacq1 Hov1 Hacq2 Hov2).
      * cbn [mode devAddr trace gain scaleFactors set_scaleFactors].
        split; [congruence|]. split; [congruence|].
      split; [exact Hprev|]. left.
        split; [reflexivity|].
        destruct (row_written (scaleFactors s6) g Float32.one Float32.one
                    Float32.one) as (H0 & H1 & H2 & _).
        repeat (split; [assumption|]).
        split; [rewrite Hgain6, Hgain5; exact Hgain4|]. right. exact Htr6.
    + destruct (calibrate_pass s s4 s5 s6 g prev raw1 raw2
                  Hg Hstart Hacq1 Hov1 Hacq2 Hov2)
        as (a6 & a7 & s' & Hrun & _ & Htr & _).
      destruct (calibrate_pass_frame s s4 s5 s6 s' g prev raw1 raw2
                  Hg Hstart Hacq1 Hov1 Hacq2 Hov2 Hrun) as (Hmode & Hdev).
      exists res, a1, a2, a3, a4, a5, a6, a7, d1, d2, prev, true, s'.
      split; [exact Hrun|].
      split; [congruence|]. split; [congruence|].
      split; [exact Hprev|]. right.
      split; [reflexivity|].
      rewrite Htr, Htr6, <- app_assoc. reflexivity.
Qed.

(** X10: a [calibrate] that returns true, for a gain 0..7, has made
    twelve calls, in this order: the read of the gain; the writes of the
    target gain, of the positive bias and of the mode register (the mode
    cached at entry); twice the trigger of a measurement, the delay and
    the block read; the write of the gain that was read at entry (what
    the bus answered to that read, or the byte [buffer[0]] held when the
    read failed), and of the normal bias.  Each call got the answer the
    bus gave in its turn, and the bus is left as the twelfth call left
    it.  The mode register is not written again. *)
Theorem calibrate_success_bus_calls (s s' : st) (g : Z) :
  0 <= g <= 7 ->
  calibrate g s = Some (true, s') ->
  let res :=
    fst (bus_readBits (devAddr s) HMC5883L_RA_CONFIG_B
           HMC5883L_CRB_GAIN_BIT HMC5883L_CRB_GAIN_LENGTH (bus s)) in
  let prev := match res with Some v => to_uint8 v | None => buffer s 0 end in
  exists (a1 a2 a3 a4 a5 a6 a7 : bool) (d1 d2 : list Z),
    let calls :=
      [ReadBits (devAddr s) HMC5883L_RA_CONFIG_B
         HMC5883L_CRB_GAIN_BIT HMC5883L_CRB_GAIN_LENGTH res;
       WriteByte (devAddr s) HMC5883L_RA_CONFIG_B (Z.shiftl g 5) a1;
       WriteBits (devAddr s) HMC5883L_RA_CONFIG_A
         HMC5883L_CRA_BIAS_BIT HMC5883L_CRA_BIAS_LENGTH HMC5883L_BIAS_POSITIVE a2;
       WriteByte (devAddr s) HMC5883L_RA_MODE (to_uint8 (mode s)) a3;
       WriteByte (devAddr s) HMC5883L_RA_MODE HMC5883L_MODE_SINGLE a4;
       Delay HMC5883L_MEASUREMENT_PERIOD;
       ReadBytes (devAddr s) HMC5883L_RA_DATAX_H 6 d1;
       WriteByte (devAddr s) HMC5883L_RA_MODE HMC5883L_MODE_SINGLE a5;
       Delay HMC5883L_MEASUREMENT_PERIOD;
       ReadBytes (devAddr s) HMC5883L_RA_DATAX_H 6 d2;
       WriteByte (devAddr s) HMC5883L_RA_CONFIG_B (to_uint8 (Z.shiftl prev 5)) a6;
       WriteBits (devAddr s) HMC5883L_RA_CONFIG_A
         HMC5883L_CRA_BIAS_BIT HMC5883L_CRA_BIAS_LENGTH HMC5883L_BIAS_NORMAL a7] in
    trace s' = trace s ++ calls /\ answered calls (bus s) (bus s').
Proof.
  intros Hg Hrun.
  destruct (calibrate_run s g Hg)
    as (res0 & a1 & a2 & a3 & a4 & a5 & a6 & a7 & d1 & d2 & prev0 & r & s1
        & Hrun1 & _ & _ & Hprev & Hways).
  rewrite Hrun in Hrun1. injection Hrun1 as <- <-.
  destruct Hways as [(Hr & _) | (_ & Htr)]; [discriminate|].
  unfold getGain in Hprev. rewrite field_read_run in Hprev.
  injection Hprev as <-.
  destruct (sound_calibrate g s s' true Hrun) as (evs & Htr' & Hans).
  rewrite Htr in Htr'. apply app_inv_head in Htr'. subst evs.
  assert (Hres : res0 =
                 fst (bus_readBits (devAddr s) HMC5883L_RA_CONFIG_B
                        HMC5883L_CRB_GAIN_BIT HMC5883L_CRB_GAIN_LENGTH (bus s))).
  { destruct Hans as [Hfirst _]. cbn [perform fst] in Hfirst.
    injection Hfirst as <-. reflexivity. }
  subst res0. cbv zeta.
  exists a1, a2, a3, a4, a5, a6, a7, d1, d2. split; [exact Htr | exact Hans].
Qed.

(** X11: [calibrate] for a gain 0..7 always returns, and never puts the
    mode back: whatever the mode before and whichever way it goes, the
    cached mode ends single and the last write to the MODE register is
    the single mode. *)
Theorem calibrate_ends_in_single_mode (s : st) (g : Z) :
  0 <= g <= 7 ->
  exists (a : bool) (r : bool) (s' : st),
    calibrate g s = Some (r, s') /\
    mode s' = HMC5883L_MODE_SINGLE /\
    last_write (devAddr s) HMC5883L_RA_MODE (trace s') =
    Some (WriteByte (devAddr s) HMC5883L_RA_MODE HMC5883L_MODE_SINGLE a).
Proof.
  intros Hg.
  destruct (calibrate_run s g Hg)
    as (res & a1 & a2 & a3 & a4 & a5 & a6 & a7 & d1 & d2 & prev & r & s'
        & Hrun & Hmode & _ & _ & Hways).
  destruct Hways as [(_ & _ & _ & _ & _ & [Htr | Htr]) | (_ & Htr)].
  - exists a4, r, s'. split; [exact Hrun|]. split; [exact Hmode|].
    rewrite Htr, last_write_app. unfold last_write. cbn [fold_left is_write_to].
    rewrite !Z.eqb_refl. reflexivity.
  - exists a5, r, s'. split; [exact Hrun|]. split; [exact Hmode|].
    rewrite Htr, last_write_app. unfold last_write. cbn [fold_left is_write_to].
    rewrite !Z.eqb_refl. reflexivity.
  - exists a5, r, s'. split; [exact Hrun|]. split; [exact Hmode|].
    rewrite Htr, last_write_app. unfold last_write. cbn [fold_left is_write_to].
    rewrite !Z.eqb_refl. reflexivity.
Qed.

(** X12: [calibrate] for a gain 0..7 talks to its own device only: every
    call it adds to the trace carries [devAddr], which it leaves as it
    was. *)
Theorem calibrate_addresses_its_device (s : st) (g : Z) :
  0 <= g <= 7 ->
  exists (evs : list event) (r : bool) (s' : st),
    calibrate g s = Some (r, s') /\
    trace s' = trace s ++ evs /\
    forallb (addressed_to (devAddr s)) evs = true /\
    devAddr s' = devAddr s.
Proof.
  intros Hg.
  destruct (calibrate_run s g Hg)
    as (res & a1 & a2 & a3 & a4 & a5 & a6 & a7 & d1 & d2 & prev & r & s'
        & Hrun & _ & Hdev & _ & Hways).
  destruct Hways as [(_ & _ & _ & _ & _ & [Htr | Htr]) | (_ & Htr)];
    eexists _, r, s'; (split; [exact Hrun|]); (split; [exact Htr|]);
    (split; [|exact Hdev]);
    cbn [forallb addressed_to]; rewrite !Z.eqb_refl; reflexivity.
Qed.

(** X13: a [calibrate] that failed left row [g] at 1.0 and did not put
    the gain back; when the cached gain is [g] (its write was
    acknowledged), [getHeading] from there on is [getRawHeading]. *)
Theorem getHeading_after_failed_calibrate_is_raw (s s1 : st) (g : Z) :
  0 <= g <= 7 ->
  calibrate g s = Some (false, s1) ->
  gain s1 = g ->
  getHeading s1 = getRawHeading s1.
Proof.
  intros Hg Hrun Hgain.
  destruct (calibrate_run s g Hg)
    as (res & a1 & a2 & a3 & a4 & a5 & a6 & a7 & d1 & d2 & prev & r & s'
        & Hrun1 & _ & _ & Hprev & Hways).
  rewrite Hrun in Hrun1. injection Hrun1 as <- <-.
  destruct Hways as [(_ & H0 & H1 & H2 & _) | (Hr & _)]; [|discriminate].
  destruct (getRawHeading_total s1) as (raw & s2 & Hacq).
  rewrite Hacq. apply (getHeading_unit_scale s1 s2 raw Hacq); [lia|].
  intros a Ha. rewrite Hgain.
  assert (Ha' : a = 0 \/ a = 1 \/ a = 2) by lia.
  destruct Ha' as [-> | [-> | ->]]; assumption.
Qed.

Lemma div_by_zero_sample (sx : bool) (m : positive) (e : Z) :
  Float32.div (S754_finite sx m e) (Float32.of_int 0) = S754_infinity sx.
Proof. destruct sx; reflexivity. Qed.

(** X14: the division by a measured axis is not guarded.  When the X
    axis of the second sample is zero (and neither sample is taken for
    an overflow), [calibrate] still returns true, and the scale factor
    of X at gain [g] is the infinity of the sign of the expected value,
    taken finite and not zero. *)
Theorem calibrate_zero_axis_gives_infinite_factor
    (s s4 s5 s6 : st) (g prev : Z) (raw1 raw2 : sample)
    (sx : bool) (m : positive) (e : Z) :
  0 <= g <= 7 ->
  self_test_start g s = Some (prev, s4) ->
  getRawHeading s4 = Some (raw1, s5) ->
  overflowed raw1 = false ->
  getRawHeading s5 = Some (raw2, s6) ->
  overflowed raw2 = false ->
  sample_x raw2 = 0 ->
  Float32.mul HMC5883L_SELF_TEST_X_AXIS_ABSOLUTE_GAUSS (HMC5883L_LSB_PER_GAUS g) =
  S754_finite sx m e ->
  exists s' : st,
    calibrate g s = Some (true, s') /\
    scaleFactors s' g 0 = S754_infinity sx.
Proof.
  intros Hg Hstart Hacq1 Hov1 Hacq2 Hov2 Hzero Hexp.
  destruct (calibrate_pass s s4 s5 s6 g prev raw1 raw2
              Hg Hstart Hacq1 Hov1 Hacq2 Hov2)
    as (a1 & a2 & s' & Hrun & Hsf & _).
  exists s'. split; [exact Hrun|].
  rewrite Hsf.
  match goal with
  | |- upd_scaleFactor (upd_scaleFactor (upd_scaleFactor ?f _ _ ?v0) _ _ ?v1)
         _ _ ?v2 _ _ = _ =>
      destruct (row_written f g v0 v1 v2) as (H0 & _)
  end.
  rewrite H0, Hzero, Hexp. apply div_by_zero_sample.
Qed.

(** X15: a negative target stands for the cached gain: with a cached
    gain below 128, [calibrate] of a negative target is [calibrate] of
    the cached gain. *)
Theorem calibrate_negative_target_is_cached_gain (s : st) (g : Z) :
  g < 0 ->
  0 <= gain s <= 127 ->
  calibrate g s = calibrate (gain s) s.
Proof.
  intros Hneg Hgain.
  unfold calibrate, bind.
  destruct (getGain s) as [[prev s1]|] eqn:Egain; [|reflexivity].
  destruct (getGain_frame s s1 prev Egain) as (_ & _ & Hg1 & _).
  unfold gets. cbv beta iota zeta. rewrite Hg1.
  replace (g <? 0) with true by (symmetry; apply Z.ltb_lt; lia).
  replace (gain s <? 0) with false by (symmetry; apply Z.ltb_ge; lia).
  replace (to_int8 (gain s)) with (gain s)
    by (unfold to_int8; rewrite Z.mod_small by lia; lia).
  reflexivity.
Qed.

(** X16: the target is not checked against the table.  For a target
    8..127 [calibrate] runs steps 1 to 3 and an acquisition and then has
    no defined result: it writes, or reads, row [testGain] of tables
    that have rows 0..7. *)
Theorem calibrate_target_above_7_undefined (s : st) (g : Z) :
  8 <= g <= 127 ->
  calibrate g s = None.
Proof.
  intros Hg.
  assert (Hidx : forall a : Z, index_ok g a = false).
  { intros a. unfold index_ok.
    replace (g <=? 7) with false by (symmetry; apply Z.leb_gt; lia).
    rewrite andb_false_r. reflexivity. }
  unfold calibrate.
  replace (g <? 0) with false by (symmetry; apply Z.ltb_ge; lia).
  unfold bind at 1. destruct (getGain s) as [[prev s1]|]; [|reflexivity].
  unfold bind at 1. unfold gets at 1. cbv beta iota zeta.
  unfold bind at 1.
  destruct (setGain (to_uint8 g) s1) as [[[] s2]|]; [|reflexivity].
  unfold bind at 1.
  destruct (setMeasurementBias HMC5883L_BIAS_POSITIVE s2) as [[[] s3]|];
    [|reflexivity].
  unfold bind at 1.
  destruct (setMode HMC5883L_MODE_SINGLE s3) as [[[] s4]|]; [|reflexivity].
  unfold bind at 1.
  destruct (getRawHeading s4) as [[raw1 s5]|]; [|reflexivity].
  destruct (overflowed raw1).
  - unfold bind at 1. unfold set_scaleFactor at 1. rewrite Hidx. reflexivity.
  - unfold bind at 1.
    destruct (getRawHeading s5) as [[raw2 s6]|]; [|reflexivity].
    destruct (overflowed raw2).
    + unfold bind at 1. unfold set_scaleFactor at 1. rewrite Hidx. reflexivity.
    + destruct raw2 as [[x y] z].
      unfold bind at 1. unfold get_LSB_PER_GAUS at 1. rewrite Hidx. reflexivity.
Qed.

(** ** The accessors of one axis, and of the status *)

(** X17: each accessor of one axis makes an acquisition of its own.  In
    single mode, reading X, Y and Z one after the other triggers three
    measurements and reads three blocks, each call answered by the bus
    in its turn; each value is the axis of the block the bus handed over
    to its own read. *)
Theorem per_axis_reads_make_three_acquisitions (s : st) :
  mode s = HMC5883L_MODE_SINGLE ->
  exists (a1 a2 a3 : bool) (d1 d2 d3 : list Z) (x y z : Z) (s' : st),
    let calls :=
      [WriteByte (devAddr s) HMC5883L_RA_MODE HMC5883L_MODE_SINGLE a1;
       Delay HMC5883L_MEASUREMENT_PERIOD;
       ReadBytes (devAddr s) HMC5883L_RA_DATAX_H 6 d1;
       WriteByte (devAddr s) HMC5883L_RA_MODE HMC5883L_MODE_SINGLE a2;
       Delay HMC5883L_MEASUREMENT_PERIOD;
       ReadBytes (devAddr s) HMC5883L_RA_DATAX_H 6 d2;
       WriteByte (devAddr s) HMC5883L_RA_MODE HMC5883L_MODE_SINGLE a3;
       Delay HMC5883L_MEASUREMENT_PERIOD;
       ReadBytes (devAddr s) HMC5883L_RA_DATAX_H 6 d3] in
    (x <- getRawHeadingX ;; y <- getRawHeadingY ;; z <- getRawHeadingZ ;;
     ret (x, y, z)) s = Some ((x, y, z), s') /\
    trace s' = trace s ++ calls /\
    answered calls (bus s) (bus s') /\
    (forall b0 b1 b2 b3 b4 b5 : Z,
        d1 = [b0; b1; b2; b3; b4; b5] -> x = twos_complement b0 b1) /\
    (forall b0 b1 b2 b3 b4 b5 : Z,
        d2 = [b0; b1; b2; b3; b4; b5] -> y = twos_complement b4 b5) /\
    (forall b0 b1 b2 b3 b4 b5 : Z,
        d3 = [b0; b1; b2; b3; b4; b5] -> z = twos_complement b2 b3).
Proof.
  intros Hmode.
  assert (Hstep : forall t : st,
             mode t = HMC5883L_MODE_SINGLE ->
             exists (a : bool) (d : list Z) (raw : sample) (t' : st),
               getRawHeading t = Some (raw, t') /\
               mode t' = HMC5883L_MODE_SINGLE /\ devAddr t' = devAddr t /\
               trace t' =
               trace t ++
               [WriteByte (devAddr t) HMC5883L_RA_MODE HMC5883L_MODE_SINGLE a;
                Delay HMC5883L_MEASUREMENT_PERIOD;
                ReadBytes (devAddr t) HMC5883L_RA_DATAX_H 6 d] /\
               forall b0 b1 b2 b3 b4 b5 : Z,
                 d = [b0; b1; b2; b3; b4; b5] ->
                 sample_x raw = twos_complement b0 b1 /\
                 sample_y raw = twos_complement b4 b5 /\
                 sample_z raw = twos_complement b2 b3).
  { intros t Ht.
    pose proof (getRawHeading_run_bytes t) as Hpin. cbv zeta in Hpin.
    destruct Hpin as (t' & Hrun & Hbuf & _ & Hbytes & _ & Htr).
    set (d := received 6 _) in *. clearbody d.
    rewrite Ht in Htr. cbn [app] in Htr.
    destruct (getRawHeading_frame _ _ _ Hrun) as (Hdev & Hm & _).
    eexists _, d, _, t'. split; [exact Hrun|].
    split; [congruence|]. split; [exact Hdev|]. split; [exact Htr|].
    intros b0 b1 b2 b3 b4 b5 ->.
    cbn [sample_x sample_y sample_z fst snd]. rewrite Hbuf.
    change (store_bytes [b0; b1; b2; b3; b4; b5] 0 (buffer t) 0) with b0.
    change (store_bytes [b0; b1; b2; b3; b4; b5] 0 (buffer t) 1) with b1.
    change (store_bytes [b0; b1; b2; b3; b4; b5] 0 (buffer t) 2) with b2.
    change (store_bytes [b0; b1; b2; b3; b4; b5] 0 (buffer t) 3) with b3.
    change (store_bytes [b0; b1; b2; b3; b4; b5] 0 (buffer t) 4) with b4.
    change (store_bytes [b0; b1; b2; b3; b4; b5] 0 (buffer t) 5) with b5.
    repeat match goal with
           | Hf : Forall _ (_ :: _) |- _ => inversion Hf; subst; clear Hf
           end.
    rewrite <- !byte_pair_value by assumption. repeat split; reflexivity. }
  destruct (Hstep s Hmode) as (a1 & d1 & raw1 & s1 & Hr1 & Hm1 & Hd1 & Ht1 & Hv1).
  destruct (Hstep s1 Hm1) as (a2 & d2 & raw2 & s2 & Hr2 & Hm2 & Hd2 & Ht2 & Hv2).
  destruct (Hstep s2 Hm2) as (a3 & d3 & raw3 & s3 & Hr3 & _ & Hd3 & Ht3 & Hv3).
  exists a1, a2, a3, d1, d2, d3, (sample_x raw1), (sample_y raw2), (sample_z raw3), s3.
  cbv zeta.
  assert (Hrun : (x <- getRawHeadingX ;; y <- getRawHeadingY ;;
                  z <- getRawHeadingZ ;; ret (x, y, z)) s =
                 Some ((sample_x raw1, sample_y raw2, sample_z raw3), s3)).
  { unfold getRawHeadingX, getRawHeadingY, getRawHeadingZ, bind.
    rewrite Hr1. unfold ret at 1. cbv beta iota.
    rewrite Hr2. unfold ret at 1. cbv beta iota.
    rewrite Hr3. reflexivity. }
  assert (Htr : trace s3 =
                trace s ++
                [WriteByte (devAddr s) HMC5883L_RA_MODE HMC5883L_MODE_SINGLE a1;
                 Delay HMC5883L_MEASUREMENT_PERIOD;
                 ReadBytes (devAddr s) HMC5883L_RA_DATAX_H 6 d1;
                 WriteByte (devAddr s) HMC5883L_RA_MODE HMC5883L_MODE_SINGLE a2;
                 Delay HMC5883L_MEASUREMENT_PERIOD;
                 ReadBytes (devAddr s) HMC5883L_RA_DATAX_H 6 d2;
                 WriteByte (devAddr s) HMC5883L_RA_MODE HMC5883L_MODE_SINGLE a3;
                 Delay HMC5883L_MEASUREMENT_PERIOD;
                 ReadBytes (devAddr s) HMC5883L_RA_DATAX_H 6 d3]).
  { rewrite Ht3, Ht2, Ht1, Hd2, Hd1, <- !app_assoc. reflexivity. }
  assert (Hsound : sound (x <- getRawHeadingX ;; y <- getRawHeadingY ;;
                          z <- getRawHeadingZ ;; ret (x, y, z))).
  { unfold getRawHeadingX, getRawHeadingY, getRawHeadingZ.
    repeat first [apply sound_getRawHeading | sound_step]. }
  split; [exact Hrun|]. split; [exact Htr|].
  split.
  { destruct (Hsound s s3 _ Hrun) as (evs & Htr' & Hans).
    rewrite Htr in Htr'. apply app_inv_head in Htr'. subst evs. exact Hans. }
  split; [intros b0 b1 b2 b3 b4 b5 Hd; apply (Hv1 _ _ _ _ _ _ Hd)|].
  split; [intros b0 b1 b2 b3 b4 b5 Hd; apply (Hv2 _ _ _ _ _ _ Hd)|].
  intros b0 b1 b2 b3 b4 b5 Hd; apply (Hv3 _ _ _ _ _ _ Hd).
Qed.

(** A read of one bit through the shared buffer, as a truth value. *)
Lemma bit_read_run (reg bitNum : Z) (s : st) :
  option_map fst
    ((dev <- gets devAddr ;;
      I2Cdev_readBit dev reg bitNum ;;;
      buf <- gets buffer ;; ret (negb (buf 0 =? 0))) s) =
  Some (negb ((match fst (bus_readBit (devAddr s) reg bitNum (bus s)) with
               | Some v => to_uint8 v
               | None => buffer s 0
               end) =? 0)).
Proof.
  unfold bind, gets, I2Cdev_readBit, ret. cbv beta iota zeta.
  destruct (fst (bus_readBit _ _ _ _)); reflexivity.
Qed.

(** X18: a status read that fails is answered from the shared buffer.
    After a [testConnection] that returned true, [getReadyStatus] and
    [getLockStatus] whose reads fail both return true. *)
Theorem status_after_testConnection_is_true (s s1 : st) :
  testConnection s = Some (true, s1) ->
  fst (bus_readBit (devAddr s1) HMC5883L_RA_STATUS
         HMC5883L_STATUS_READY_BIT (bus s1)) = None ->
  fst (bus_readBit (devAddr s1) HMC5883L_RA_STATUS
         HMC5883L_STATUS_LOCK_BIT (bus s1)) = None ->
  option_map fst (getReadyStatus s1) = Some true /\
  option_map fst (getLockStatus s1) = Some true.
Proof.
  intros Htest Hready Hlock.
  destruct (testConnection_true_buffer s s1 Htest) as (Hb0 & _).
  unfold getReadyStatus, getLockStatus.
  rewrite !bit_read_run, Hready, Hlock, Hb0. split; reflexivity.
Qed.

End DriverExtras.

(** ** More runs on the simulated bus *)

(** A failed read of a field after the identification bytes were read. *)
Example getMode_stale_after_testConnection :
  option_map fst
    (bind testConnection (fun _ => getMode)
       (HMC5883L_new (mkSimBus [] [] [[72; 52; 51]]))) = Some 72.
Proof. reflexivity. Qed.

(** The identification bytes arrive, then the read of the gain fails. *)
Lemma getGain_after_testConnection_is_H_witness :
  let s := HMC5883L_new (mkSimBus [] [] [[72; 52; 51]]) in
  exists s1 : state SimBus,
    testConnection s = Some (true, s1) /\
    fst (bus_readBits (devAddr s1) HMC5883L_RA_CONFIG_B
           HMC5883L_CRB_GAIN_BIT HMC5883L_CRB_GAIN_LENGTH (bus s1)) = None /\
    option_map fst (getGain s1) = Some char_H.
Proof.
  cbv zeta. eexists.
  split; [vm_compute; reflexivity|].
  split; [vm_compute; reflexivity|].
  apply (getGain_after_testConnection_is_H
           (HMC5883L_new (mkSimBus [] [] [[72; 52; 51]])));
    vm_compute; reflexivity.
Defined.

(** The continuous mode, then the idle mode, on a driver in single mode. *)
Lemma setMode_twice_writes_previous_modes_witness :
  let s := HMC5883L_new (mkSimBus [] [] []) in
  0 <= HMC5883L_MODE_CONTINUOUS <= 255 /\
  exists (a1 a2 : bool) (s' : state SimBus),
    bind (setMode HMC5883L_MODE_CONTINUOUS) (fun _ => setMode HMC5883L_MODE_IDLE) s =
    Some (tt, s') /\
    trace s' =
    trace s ++
    [WriteByte (devAddr s) HMC5883L_RA_MODE (to_uint8 (mode s)) a1;
     WriteByte (devAddr s) HMC5883L_RA_MODE HMC5883L_MODE_CONTINUOUS a2] /\
    mode s' = HMC5883L_MODE_IDLE.
Proof.
  assert (Hm : 0 <= HMC5883L_MODE_CONTINUOUS <= 255)
    by (unfold HMC5883L_MODE_CONTINUOUS; lia).
  split; [exact Hm|].
  exact (setMode_twice_writes_previous_modes
           (HMC5883L_new (mkSimBus [] [] [])) HMC5883L_MODE_CONTINUOUS
           HMC5883L_MODE_IDLE Hm).
Defined.


(** The gain 8, acknowledged, then a scaled heading. *)
Lemma getHeading_undefined_after_setGain_above_7_witness :
  let s := HMC5883L_new (mkSimBus [] [] [[1; 2; 3; 4; 5; 6]]) in
  exists s1 : state SimBus,
    7 < 8 /\
    fst (bus_writeByte (devAddr s) HMC5883L_RA_CONFIG_B
           (to_uint8 (Z.shiftl 8 5)) (bus s)) = true /\
    setGain 8 s = Some (tt, s1) /\
    getHeading s1 = None.
Proof.
  cbv zeta. eexists.
  split; [lia|].
  split; [vm_compute; reflexivity|].
  split; [vm_compute; reflexivity|].
  apply (getHeading_undefined_after_setGain_above_7
           (HMC5883L_new (mkSimBus [] [] [[1; 2; 3; 4; 5; 6]])) _ 8);
    [lia | vm_compute; reflexivity | vm_compute; reflexivity].
Defined.

(** [initialize] on a bus that acknowledges, then a heading. *)
Lemma getHeading_after_initialize_is_raw_witness :
  let s := HMC5883L_new (mkSimBus [] [] [[0x7F; 0xFF; 0x80; 0x00; 0xF0; 0x00]]) in
  exists s1 : state SimBus,
    initialize s = Some (tt, s1) /\
    0 <= gain s1 <= 7 /\
    getHeading s1 = getRawHeading s1.
Proof.
  cbv zeta. eexists.
  split; [vm_compute; reflexivity|].
  split; [vm_compute; split; discriminate|].
  apply (getHeading_after_initialize_is_raw
           (HMC5883L_new
              (mkSimBus [] [] [[0x7F; 0xFF; 0x80; 0x00; 0xF0; 0x00]])));
    [vm_compute; reflexivity | vm_compute; split; discriminate].
Defined.

(** A self-test at gain 1 that passes, on a driver at the address 0x3C. *)
Lemma calibrate_success_bus_calls_witness :
  let s := HMC5883L_new_at 0x3C
             (mkSimBus [] [Some 3] [[0; 10; 0; 20; 0; 30]; [0; 100; 0; 90; 0; 80]]) in
  exists s' : state SimBus,
    0 <= 1 <= 7 /\
    calibrate 1 s = Some (true, s') /\
    let res :=
      fst (bus_readBits (devAddr s) HMC5883L_RA_CONFIG_B
             HMC5883L_CRB_GAIN_BIT HMC5883L_CRB_GAIN_LENGTH (bus s)) in
    let prev := match res with Some v => to_uint8 v | None => buffer s 0 end in
    exists (a1 a2 a3 a4 a5 a6 a7 : bool) (d1 d2 : list Z),
      let calls :=
      [ReadBits (devAddr s) HMC5883L_RA_CONFIG_B
         HMC5883L_CRB_GAIN_BIT HMC5883L_CRB_GAIN_LENGTH res;
       WriteByte (devAddr s) HMC5883L_RA_CONFIG_B (Z.shiftl 1 5) a1;
       WriteBits (devAddr s) HMC5883L_RA_CONFIG_A
         HMC5883L_CRA_BIAS_BIT HMC5883L_CRA_BIAS_LENGTH HMC5883L_BIAS_POSITIVE a2;
       WriteByte (devAddr s) HMC5883L_RA_MODE (to_uint8 (mode s)) a3;
       WriteByte (devAddr s) HMC5883L_RA_MODE HMC5883L_MODE_SINGLE a4;
       Delay HMC5883L_MEASUREMENT_PERIOD;
       ReadBytes (devAddr s) HMC5883L_RA_DATAX_H 6 d1;
       WriteByte (devAddr s) HMC5883L_RA_MODE HMC5883L_MODE_SINGLE a5;
       Delay HMC5883L_MEASUREMENT_PERIOD;
       ReadBytes (devAddr s) HMC5883L_RA_DATAX_H 6 d2;
       WriteByte (devAddr s) HMC5883L_RA_CONFIG_B (to_uint8 (Z.shiftl prev 5)) a6;
       WriteBits (devAddr s) HMC5883L_RA_CONFIG_A
         HMC5883L_CRA_BIAS_BIT HMC5883L_CRA_BIAS_LENGTH HMC5883L_BIAS_NORMAL a7] in
      trace s' = trace s ++ calls /\ answered calls (bus s) (bus s').
Proof.
  cbv zeta. eexists.
  split; [lia|].
  split; [vm_compute; reflexivity|].
  apply (calibrate_success_bus_calls
           (HMC5883L_new_at 0x3C
              (mkSimBus [] [Some 3]
                 [[0; 10; 0; 20; 0; 30]; [0; 100; 0; 90; 0; 80]])) _ 1);
    [lia | vm_compute; reflexivity].
Defined.

(** A self-test at gain 1 on a driver whose cached mode is continuous. *)
Lemma calibrate_ends_in_single_mode_witness :
  let s := continuous
             (HMC5883L_new
                (mkSimBus [] [Some 3]
                   [[0; 10; 0; 20; 0; 30]; [0; 100; 0; 90; 0; 80]])) in
  0 <= 1 <= 7 /\
  exists (a : bool) (r : bool) (s' : state SimBus),
    calibrate 1 s = Some (r, s') /\
    mode s' = HMC5883L_MODE_SINGLE /\
    last_write (devAddr s) HMC5883L_RA_MODE (trace s') =
    Some (WriteByte (devAddr s) HMC5883L_RA_MODE HMC5883L_MODE_SINGLE a).
Proof.
  split; [lia|].
  apply (calibrate_ends_in_single_mode
           (continuous
              (HMC5883L_new
                 (mkSimBus [] [Some 3]
                    [[0; 10; 0; 20; 0; 30]; [0; 100; 0; 90; 0; 80]]))) 1).
  lia.
Defined.

(** A self-test at gain 1 on a driver at the address 0x3C. *)
Lemma calibrate_addresses_its_device_witness :
  let s := HMC5883L_new_at 0x3C
             (mkSimBus [] [Some 3] [[0; 10; 0; 20; 0; 30]; [0; 100; 0; 90; 0; 80]]) in
  0 <= 1 <= 7 /\
  exists (evs : list event) (r : bool) (s' : state SimBus),
    calibrate 1 s = Some (r, s') /\
    trace s' = trace s ++ evs /\
    forallb (addressed_to (devAddr s)) evs = true /\
    devAddr s' = devAddr s.
Proof.
  split; [lia|].
  apply (calibrate_addresses_its_device
           (HMC5883L_new_at 0x3C
              (mkSimBus [] [Some 3]
                 [[0; 10; 0; 20; 0; 30]; [0; 100; 0; 90; 0; 80]])) 1).
  lia.
Defined.

(** A self-test at gain 1 that fails in its first sample, then a
    heading. *)
Lemma getHeading_after_failed_calibrate_is_raw_witness :
  let s := HMC5883L_new
             (mkSimBus [] [Some 3] [[0; 10; 0xF0; 0; 0; 30]; [0; 100; 0; 90; 0; 80]]) in
  exists s1 : state SimBus,
    0 <= 1 <= 7 /\
    calibrate 1 s = Some (false, s1) /\
    gain s1 = 1 /\
    getHeading s1 = getRawHeading s1.
Proof.
  cbv zeta. eexists.
  split; [lia|].
  split; [vm_compute; reflexivity|].
  split; [vm_compute; reflexivity|].
  apply (getHeading_after_failed_calibrate_is_raw
           (HMC5883L_new
              (mkSimBus [] [Some 3]
                 [[0; 10; 0xF0; 0; 0; 30]; [0; 100; 0; 90; 0; 80]])) _ 1);
    [lia | vm_compute; reflexivity | vm_compute; reflexivity].
Defined.

(** A self-test at gain 1 whose second sample is (0, 80, 90). *)
Lemma calibrate_zero_axis_gives_infinite_factor_witness :
  let s := HMC5883L_new
             (mkSimBus [] [Some 3] [[0; 10; 0; 20; 0; 30]; [0; 0; 0; 90; 0; 80]]) in
  exists s4 s5 s6 : state SimBus,
    0 <= 1 <= 7 /\
    self_test_start 1 s = Some (3, s4) /\
    getRawHeading s4 = Some ((10, 30, 20), s5) /\
    overflowed (10, 30, 20) = false /\
    getRawHeading s5 = Some ((0, 80, 90), s6) /\
    overflowed (0, 80, 90) = false /\
    sample_x (0, 80, 90) = 0 /\
    Float32.mul HMC5883L_SELF_TEST_X_AXIS_ABSOLUTE_GAUSS (HMC5883L_LSB_PER_GAUS 1) =
    S754_finite false 10357965 (-13) /\
    exists s' : state SimBus,
      calibrate 1 s = Some (true, s') /\
      scaleFactors s' 1 0 = S754_infinity false.
Proof.
  cbv zeta. eexists _, _, _.
  split; [lia|].
  split; [vm_compute; reflexivity|].
  split; [vm_compute; reflexivity|].
  split; [reflexivity|].
  split; [vm_compute; reflexivity|].
  split; [reflexivity|].
  split; [reflexivity|].
  split; [vm_compute; reflexivity|].
  eapply (calibrate_zero_axis_gives_infinite_factor
            _ _ _ _ 1 3 (10, 30, 20) (0, 80, 90) false 10357965 (-13));
    [ lia | vm_compute; reflexivity | vm_compute; reflexivity | reflexivity
    | vm_compute; reflexivity | reflexivity | reflexivity
    | vm_compute; reflexivity ].
Defined.

(** The target -1 on a driver whose cached gain is 0. *)
Lemma calibrate_negative_target_is_cached_gain_witness :
  let s := HMC5883L_new
             (mkSimBus [] [Some 3] [[0; 10; 0; 20; 0; 30]; [0; 100; 0; 90; 0; 80]]) in
  -1 < 0 /\ 0 <= gain s <= 127 /\
  calibrate (-1) s = calibrate (gain s) s.
Proof.
  cbv zeta.
  assert (Hgain : 0 <= gain (HMC5883L_new
                               (mkSimBus [] [Some 3]
                                  [[0; 10; 0; 20; 0; 30]; [0; 100; 0; 90; 0; 80]]))
                  <= 127) by (cbn; lia).
  split; [lia|]. split; [exact Hgain|].
  apply (calibrate_negative_target_is_cached_gain
           (HMC5883L_new
              (mkSimBus [] [Some 3]
                 [[0; 10; 0; 20; 0; 30]; [0; 100; 0; 90; 0; 80]])) (-1));
    [lia | exact Hgain].
Defined.

(** The target 8. *)
Lemma calibrate_target_above_7_undefined_witness :
  8 <= 8 <= 127 /\
  calibrate 8
    (HMC5883L_new
       (mkSimBus [] [Some 3] [[0; 10; 0; 20; 0; 30]; [0; 100; 0; 90; 0; 80]])) =
  None.
Proof.
  split; [lia|].
  apply (calibrate_target_above_7_undefined
           (HMC5883L_new
              (mkSimBus [] [Some 3]
                 [[0; 10; 0; 20; 0; 30]; [0; 100; 0; 90; 0; 80]])) 8).
  lia.
Defined.

(** Three axes read one by one in single mode, each from a block of its
    own. *)
Lemma per_axis_reads_make_three_acquisitions_witness :
  let s := set_mode HMC5883L_MODE_SINGLE
             (HMC5883L_new
                (mkSimBus [] []
                   [[0; 1; 0; 2; 0; 3]; [0; 4; 0; 5; 0; 6]; [0; 7; 0; 8; 0; 9]])) in
  mode s = HMC5883L_MODE_SINGLE /\
  exists (a1 a2 a3 : bool) (d1 d2 d3 : list Z) (x y z : Z) (s' : state SimBus),
    let calls :=
        [WriteByte (devAddr s) HMC5883L_RA_MODE HMC5883L_MODE_SINGLE a1;
         Delay HMC5883L_MEASUREMENT_PERIOD;
         ReadBytes (devAddr s) HMC5883L_RA_DATAX_H 6 d1;
         WriteByte (devAddr s) HMC5883L_RA_MODE HMC5883L_MODE_SINGLE a2;
         Delay HMC5883L_MEASUREMENT_PERIOD;
         ReadBytes (devAddr s) HMC5883L_RA_DATAX_H 6 d2;
         WriteByte (devAddr s) HMC5883L_RA_MODE HMC5883L_MODE_SINGLE a3;
         Delay HMC5883L_MEASUREMENT_PERIOD;
         ReadBytes (devAddr s) HMC5883L_RA_DATAX_H 6 d3] in
    bind getRawHeadingX
      (fun x => bind getRawHeadingY
         (fun y => bind getRawHeadingZ (fun z => ret (x, y, z)))) s =
    Some ((x, y, z), s') /\
    trace s' = trace s ++ calls /\
    answered calls (bus s) (bus s') /\
    (forall b0 b1 b2 b3 b4 b5 : Z,
        d1 = [b0; b1; b2; b3; b4; b5] -> x = twos_complement b0 b1) /\
    (forall b0 b1 b2 b3 b4 b5 : Z,
        d2 = [b0; b1; b2; b3; b4; b5] -> y = twos_complement b4 b5) /\
    (forall b0 b1 b2 b3 b4 b5 : Z,
        d3 = [b0; b1; b2; b3; b4; b5] -> z = twos_complement b2 b3).
Proof.
  split; [reflexivity|].
  apply (per_axis_reads_make_three_acquisitions
           (set_mode HMC5883L_MODE_SINGLE
              (HMC5883L_new
                 (mkSimBus [] []
                    [[0; 1; 0; 2; 0; 3]; [0; 4; 0; 5; 0; 6];
                     [0; 7; 0; 8; 0; 9]])))).
  reflexivity.
Defined.

(** The three values of that run. *)
Example per_axis_reads_values :
  option_map fst
    (bind getRawHeadingX
       (fun x => bind getRawHeadingY
          (fun y => bind getRawHeadingZ (fun z => ret (x, y, z))))
       (set_mode HMC5883L_MODE_SINGLE
          (HMC5883L_new
             (mkSimBus [] []
                [[0; 1; 0; 2; 0; 3]; [0; 4; 0; 5; 0; 6]; [0; 7; 0; 8; 0; 9]])))) =
  Some (1, 6, 8).
Proof. reflexivity. Qed.

(** The identification bytes arrive, then both reads of the status fail. *)
Lemma status_after_testConnection_is_true_witness :
  let s := HMC5883L_new (mkSimBus [] [] [[72; 52; 51]]) in
  exists s1 : state SimBus,
    testConnection s = Some (true, s1) /\
    fst (bus_readBit (devAddr s1) HMC5883L_RA_STATUS
           HMC5883L_STATUS_READY_BIT (bus s1)) = None /\
    fst (bus_readBit (devAddr s1) HMC5883L_RA_STATUS
           HMC5883L_STATUS_LOCK_BIT (bus s1)) = None /\
    option_map fst (getReadyStatus s1) = Some true /\
    option_map fst (getLockStatus s1) = Some true.
Proof.
  cbv zeta. eexists.
  split; [vm_compute; reflexivity|].
  split; [vm_compute; reflexivity|].
  split; [vm_compute; reflexivity|].
  apply (status_after_testConnection_is_true
           (HMC5883L_new (mkSimBus [] [] [[72; 52; 51]])));
    vm_compute; reflexivity.
Defined.

(** Six bytes on the wire with the sentinel, the largest value and -1. *)
Lemma getRawHeading_twos_complement_witness :
  exists s' : state SimBus,
    getRawHeading
      (continuous
         (HMC5883L_new (mkSimBus [] [] [[0xF0; 0x00; 0xFF; 0xFF; 0x7F; 0xFF]]))) =
    Some ((-4096, 32767, -1), s').
Proof.
  pose proof (getRawHeading_twos_complement
                (continuous
                   (HMC5883L_new
                      (mkSimBus [] [] [[0xF0; 0x00; 0xFF; 0xFF; 0x7F; 0xFF]]))))
    as Hspec.
  cbv zeta in Hspec. destruct Hspec as (raw & s' & Hrun & _ & _ & Hdec).
  destruct (Hdec 0xF0 0x00 0xFF 0xFF 0x7F 0xFF eq_refl) as (Hx & Hz & Hy & _).
  destruct raw as [[x y] z]. cbn [sample_x sample_y sample_z fst snd] in *.
  subst x y z. exists s'. exact Hrun.
Defined.

(** A read that falls short: two bytes arrive over a buffer that holds
    the six bytes of an earlier sample, and the other two axes are the
    earlier ones. *)
Example getRawHeading_two_bytes_arrive :
  option_map fst
    (bind getRawHeading (fun _ => getRawHeading)
       (continuous
          (HMC5883L_new (mkSimBus [] [] [[0; 1; 0; 2; 0; 3]; [0; 9]])))) =
  Some (9, 3, 2).
Proof. reflexivity. Qed.
